(** * BESSER agent framework: scenarios, perception entities and event predicates

    A shallow embedding of the scenario evaluator
    ([besser/agent/core/scenario], [besser/agent/core/image]) and of the
    event library ([besser/bot/library/event/event_library.py]), followed by
    the properties of the specification that concern them.

    Python objects become records, [raise] becomes the [Raise] constructor of
    an error monad, Python [int] is [Z] and Python [float] is the IEEE-754
    binary64 type [float] of the kernel. *)

From Stdlib Require Import ZArith Lia Bool.
From Stdlib Require Import Floats.PrimFloat Floats.FloatOps Floats.SpecFloat.
From stdpp Require Import base strings gmap list.

Set Warnings "-inexact-float".
Local Open Scope string_scope.
Local Open Scope Z_scope.
Local Open Scope list_scope.

(** ** Exceptions and the error monad *)

Inductive exn : Set :=
  | ValueError
  | TypeError
  | KeyError
  | IndexError
  | AttributeError.

Inductive result (A : Type) : Type :=
  | Ok (a : A)
  | Raise (e : exn).
Arguments Ok {A} a.
Arguments Raise {A} e.

#[global] Instance result_ret : MRet result := fun A a => Ok a.
#[global] Instance result_bind : MBind result := fun A B f m =>
  match m with
  | Ok a => f a
  | Raise e => Raise e
  end.

(** A list comprehension [[f x for x in l]] whose body may raise. *)
Definition comprehension {A B} (f : A -> result B) : list A -> result (list B) :=
  fix each (l : list A) : result (list B) :=
    match l with
    | [] => Ok []
    | x :: l' => y ← f x; ys ← each l'; Ok (y :: ys)
    end.

(** A list comprehension [[x for x in l if p x]] whose condition may raise. *)
Fixpoint comprehension_if {A} (p : A -> result bool) (l : list A) : result (list A) :=
  match l with
  | [] => Ok []
  | x :: l' => b ← p x; xs ← comprehension_if p l'; Ok (if b : bool then x :: xs else xs)
  end.

(** ** Python values *)

Inductive pyvalue : Set :=
  | VNone
  | VBool (b : bool)
  | VInt (z : Z)
  | VFloat (f : float)
  | VStr (s : string).

Inductive pytype : Set :=
  | TNoneType
  | TBool
  | TInt
  | TFloat
  | TStr.

#[global] Instance pytype_eq_dec : EqDecision pytype.
Proof. solve_decision. Defined.

(** [type(value)] *)
Definition type_of (v : pyvalue) : pytype :=
  match v with
  | VNone => TNoneType
  | VBool _ => TBool
  | VInt _ => TInt
  | VFloat _ => TFloat
  | VStr _ => TStr
  end.

(** *** Rich comparison

    [bool] is a subclass of [int]; an [int] and a [float] are compared by
    their exact values; [nan] is unordered with everything. *)

Inductive number : Set :=
  | NInt (z : Z)
  | NFloat (f : float).

Definition as_number (v : pyvalue) : option number :=
  match v with
  | VBool b => Some (NInt (Z.b2z b))
  | VInt z => Some (NInt z)
  | VFloat f => Some (NFloat f)
  | _ => None
  end.

Definition Z_float_compare (z : Z) (f : float) : option comparison :=
  match Prim2SF f with
  | S754_nan => None
  | S754_zero _ => Some (z ?= 0)
  | S754_infinity s => Some (if s then Gt else Lt)
  | S754_finite s m e =>
      let v := if s then Z.neg m else Z.pos m in
      Some (if 0 <=? e then z ?= v * 2 ^ e else z * 2 ^ (- e) ?= v)
  end.

Definition float_compare (f g : float) : option comparison :=
  match PrimFloat.compare f g with
  | FEq => Some Eq
  | FLt => Some Lt
  | FGt => Some Gt
  | FNotComparable => None
  end.

Definition number_compare (x y : number) : option comparison :=
  match x, y with
  | NInt a, NInt b => Some (a ?= b)
  | NFloat f, NFloat g => float_compare f g
  | NInt a, NFloat g => Z_float_compare a g
  | NFloat f, NInt b => CompOpp <$> Z_float_compare b f
  end.

Definition is_cmp (c : comparison) (o : option comparison) : bool :=
  match o with
  | Some c' => bool_decide (c = c')
  | None => false
  end.

(** [a == b]; never raises on these values. *)
Definition py_eq (a b : pyvalue) : bool :=
  match a, b with
  | VNone, VNone => true
  | VStr s, VStr t => String.eqb s t
  | _, _ =>
      match as_number a, as_number b with
      | Some x, Some y => is_cmp Eq (number_compare x y)
      | _, _ => false
      end
  end.

(** [a != b] *)
Definition py_ne (a b : pyvalue) : bool := negb (py_eq a b).

(** The ordering of two values, or [TypeError] when they are not ordered
    ([None], or a string against a number). *)
Definition py_order (a b : pyvalue) : result (option comparison) :=
  match a, b with
  | VStr s, VStr t => Ok (Some (String.compare s t))
  | _, _ =>
      match as_number a, as_number b with
      | Some x, Some y => Ok (number_compare x y)
      | _, _ => Raise TypeError
      end
  end.

(** [a < b], [a <= b], [a > b], [a >= b] *)
Definition py_lt (a b : pyvalue) : result bool :=
  o ← py_order a b; Ok (is_cmp Lt o).
Definition py_le (a b : pyvalue) : result bool :=
  o ← py_order a b; Ok (is_cmp Lt o || is_cmp Eq o).
Definition py_gt (a b : pyvalue) : result bool :=
  o ← py_order a b; Ok (is_cmp Gt o).
Definition py_ge (a b : pyvalue) : result bool :=
  o ← py_order a b; Ok (is_cmp Gt o || is_cmp Eq o).

(** ** Attributes ([besser/agent/core/attribute.py]) *)

Record Attribute : Set := mkAttribute {
  attr_name : string;
  attr_value : pyvalue
}.

(** The body shared by the four [...Attribute.__init__] methods: the name
    must be a key of the class dictionary and the dictionary's type for it
    must be the type of the value. *)
Definition checked_attribute (dictionary : gmap string pytype)
    (name : string) (value : pyvalue) : result Attribute :=
  match dictionary !! name with
  | None => Raise ValueError
  | Some t =>
      if bool_decide (t ≠ type_of value) then Raise ValueError
      else Ok (mkAttribute name value)
  end.

(** [name in [attribute.name for attribute in attributes]] *)
Definition name_in (name : string) (attributes : list Attribute) : bool :=
  bool_decide (name ∈ attr_name <$> attributes).

(** The [get_attribute_value] method shared by the classes below: the value
    of the first attribute of that name, or [None]. *)
Fixpoint get_attribute_value (attributes : list Attribute) (name : string) : pyvalue :=
  match attributes with
  | [] => VNone
  | attribute :: rest =>
      if String.eqb (attr_name attribute) name then attr_value attribute
      else get_attribute_value rest name
  end.

(** A [dict[str, Any]] argument: its items in insertion order.  The keys of
    a dict are pairwise distinct, which [is_dict] records. *)
Definition items : Set := list (string * pyvalue).

Definition is_dict (attributes : items) : Prop := NoDup attributes.*1.

(** [attributes[name]] on such a dict, when the key is present. *)
Fixpoint items_get (attributes : items) (name : string) : option pyvalue :=
  match attributes with
  | [] => None
  | (k, v) :: rest => if String.eqb k name then Some v else items_get rest name
  end.

(** ** Perception entities ([besser/agent/core/image]) *)

Inductive ImageClass : Set :=
  | ImageEntity
  | ImageProperty.

#[global] Instance ImageClass_eq_dec : EqDecision ImageClass.
Proof. solve_decision. Defined.

Record ImageRequirement : Set := mkImageRequirement {
  req_class : ImageClass;             (* [type(self)] *)
  req_name : string;
  req_attributes : list Attribute
}.

(** Anything that can be handed to [__eq__] as [other]. *)
Inductive pyobject : Set :=
  | ObjValue (v : pyvalue)
  | ObjImage (r : ImageRequirement).

Definition ImageEntityAttribute_dictionary : gmap string pytype :=
  {[ "description" := TStr ]}.
Definition ImagePropertyAttribute_dictionary : gmap string pytype :=
  {[ "description" := TStr ]}.

Definition ImageEntityAttribute_init := checked_attribute ImageEntityAttribute_dictionary.
Definition ImagePropertyAttribute_init := checked_attribute ImagePropertyAttribute_dictionary.

Definition ImageEntity_init (name : string) (attributes : items) : result ImageRequirement :=
  attrs ← comprehension (fun '(attr_name, attr_value) =>
                           ImageEntityAttribute_init attr_name attr_value) attributes;
  Ok (mkImageRequirement ImageEntity name attrs).

Definition ImageProperty_init (name : string) (attributes : items) : result ImageRequirement :=
  attrs ← comprehension (fun '(attr_name, attr_value) =>
                           ImagePropertyAttribute_init attr_name attr_value) attributes;
  Ok (mkImageRequirement ImageProperty name attrs).

Section ImageRequirementIdentity.

(** [hash] on strings is fixed within one interpreter run and unknown
    otherwise. *)
Variable hash_str : string -> Z.

(** [ImageRequirement.__eq__] *)
Definition ImageRequirement_eq (self : ImageRequirement) (other : pyobject) : bool :=
  match other with
  | ObjImage o =>
      if bool_decide (req_class o = req_class self)
      then String.eqb (req_name self) (req_name o)
      else false
  | ObjValue _ => false
  end.

(** [ImageRequirement.__hash__] *)
Definition ImageRequirement_hash (self : ImageRequirement) : Z :=
  hash_str (req_name self).

End ImageRequirementIdentity.

(** ** Sessions of the agent

    Modelled from the spec: [besser/agent/core/session.py] and
    [besser/agent/cv/prediction/image_prediction.py] are not part of the
    sources at hand.  The session carries an optional perception snapshot;
    a snapshot exposes the object-detection results (an entity identity and
    a score each) and the property-detection results (a property identity
    and a score each), both in order. *)

Record ImageObjectPrediction : Set := mkImageObjectPrediction {
  iop_image_entity : ImageRequirement;
  iop_score : float
}.

Record ImagePropertyPrediction : Set := mkImagePropertyPrediction {
  ipp_image_property : ImageRequirement;
  ipp_score : float
}.

Record ImagePrediction : Set := mkImagePrediction {
  image_object_predictions : list ImageObjectPrediction;
  image_property_predictions : list ImagePropertyPrediction
}.

Record Session : Set := mkSession {
  image_prediction : option ImagePrediction
}.

(** ** Scenario leaves ([besser/agent/core/scenario]) *)

(** [a and b]: [b] is evaluated only when [a] is true. *)
Definition py_and (a b : result bool) : result bool :=
  x ← a; if x : bool then b else Ok false.

Definition ScenarioImageEntityAttribute_dictionary : gmap string pytype :=
  {[ "score" := TFloat; "min" := TInt; "max" := TInt ]}.

Definition ScenarioImageEntityAttribute_init :=
  checked_attribute ScenarioImageEntityAttribute_dictionary.

Record ScenarioImageEntity : Set := mkScenarioImageEntity {
  sie_name : string;
  sie_image_entity : ImageRequirement;
  sie_attributes : list Attribute
}.

(** [ScenarioImageEntity.__init__] *)
Definition ScenarioImageEntity_init (name : string) (image_entity : ImageRequirement)
    (attributes : items) : result ScenarioImageEntity :=
  attrs ← comprehension (fun '(attr_name, attr_value) =>
                           ScenarioImageEntityAttribute_init attr_name attr_value) attributes;
  if negb (name_in "score" attrs) then Raise ValueError else
  attrs ← (if negb (name_in "min" attrs)
           then a ← ScenarioImageEntityAttribute_init "min" (VInt 1); Ok (attrs ++ [a])
           else Ok attrs);
  attrs ← (if negb (name_in "max" attrs)
           then a ← ScenarioImageEntityAttribute_init "max" (VInt 0); Ok (attrs ++ [a])
           else Ok attrs);
  let min := get_attribute_value attrs "min" in
  let max := get_attribute_value attrs "max" in
  too_small ← py_lt min (VInt 1);
  if too_small : bool then Raise ValueError else
  crossed ← py_and (py_gt min max) (Ok (py_ne max (VInt 0)));
  if crossed : bool then Raise ValueError else
  Ok (mkScenarioImageEntity name image_entity attrs).

(** The condition of the list comprehension in
    [ScenarioImageEntity.evaluate]. *)
Definition qualifies (image_entity : ImageRequirement) (score : pyvalue)
    (image_object_prediction : ImageObjectPrediction) : result bool :=
  py_and (Ok (ImageRequirement_eq (iop_image_entity image_object_prediction)
                                  (ObjImage image_entity)))
         (py_ge (VFloat (iop_score image_object_prediction)) score).

(** [ScenarioImageEntity.evaluate] *)
Definition ScenarioImageEntity_evaluate (self : ScenarioImageEntity)
    (session : Session) : result bool :=
  match image_prediction session with
  | None => Ok false
  | Some prediction =>
      let _min := get_attribute_value (sie_attributes self) "min" in
      let _max := get_attribute_value (sie_attributes self) "max" in
      let score := get_attribute_value (sie_attributes self) "score" in
      filtered_image_object_predictions ←
        comprehension_if (qualifies (sie_image_entity self) score)
                         (image_object_predictions prediction);
      let num_predictions := VInt (Z.of_nat (length filtered_image_object_predictions)) in
      if py_eq num_predictions (VInt 0) then Ok false else
      if py_eq _min (VInt 0) && py_eq _max (VInt 0) then Ok true else
      c2 ← py_and (Ok (py_eq _min (VInt 0))) (py_le num_predictions _max);
      if c2 : bool then Ok true else
      c3 ← py_and (Ok (py_eq _max (VInt 0))) (py_ge num_predictions _min);
      if c3 : bool then Ok true else
      c4 ← py_and (py_le _min num_predictions) (py_le num_predictions _max);
      if c4 : bool then Ok true else
      Ok false
  end.

Definition ScenarioImagePropertyAttribute_dictionary : gmap string pytype :=
  {[ "score" := TFloat ]}.

Definition ScenarioImagePropertyAttribute_init :=
  checked_attribute ScenarioImagePropertyAttribute_dictionary.

Record ScenarioImageProperty : Set := mkScenarioImageProperty {
  sip_name : string;
  sip_image_property : ImageRequirement;
  sip_attributes : list Attribute
}.

(** [ScenarioImageProperty.__init__] *)
Definition ScenarioImageProperty_init (name : string) (image_property : ImageRequirement)
    (attributes : items) : result ScenarioImageProperty :=
  attrs ← comprehension (fun '(attr_name, attr_value) =>
                           ScenarioImagePropertyAttribute_init attr_name attr_value) attributes;
  if negb (name_in "score" attrs) then Raise ValueError else
  Ok (mkScenarioImageProperty name image_property attrs).

(** The loop of [ScenarioImageProperty.evaluate]: return [True] at the
    first prediction that matches, [False] when the list is exhausted. *)
Fixpoint property_loop (image_property : ImageRequirement) (score : pyvalue)
    (image_property_predictions : list ImagePropertyPrediction) : result bool :=
  match image_property_predictions with
  | [] => Ok false
  | image_property_prediction :: rest =>
      hit ← py_and (Ok (ImageRequirement_eq (ipp_image_property image_property_prediction)
                                            (ObjImage image_property)))
                   (py_ge (VFloat (ipp_score image_property_prediction)) score);
      if hit : bool then Ok true else property_loop image_property score rest
  end.

(** [ScenarioImageProperty.evaluate] *)
Definition ScenarioImageProperty_evaluate (self : ScenarioImageProperty)
    (session : Session) : result bool :=
  match image_prediction session with
  | None => Ok false
  | Some prediction =>
      let score := get_attribute_value (sip_attributes self) "score" in
      property_loop (sip_image_property self) score (image_property_predictions prediction)
  end.

(** ** Boolean expressions ([boolean_expression.py], [scenario.py]) *)

Inductive BooleanOperator : Set :=
  | AND
  | OR
  | NOT.

Inductive ScenarioRequirement : Set :=
  | RequireImageEntity (leaf : ScenarioImageEntity)
  | RequireImageProperty (leaf : ScenarioImageProperty).

#[warnings="-register-all"] Inductive Expression : Set :=
  | BooleanExpression (operator : BooleanOperator) (expressions : list Expression)
  | Requirement (leaf : ScenarioRequirement).

(** [BooleanExpression.__init__] *)
Definition BooleanExpression_init (operator : BooleanOperator)
    (expressions : list Expression) : result Expression :=
  if match operator with AND | OR => true | NOT => false end
     && bool_decide (length expressions < 2)%nat
  then Raise ValueError else
  if match operator with NOT => true | _ => false end
     && bool_decide (length expressions ≠ 1%nat)
  then Raise ValueError else
  Ok (BooleanExpression operator expressions).

Definition ScenarioRequirement_evaluate (self : ScenarioRequirement)
    (session : Session) : result bool :=
  match self with
  | RequireImageEntity leaf => ScenarioImageEntity_evaluate leaf session
  | RequireImageProperty leaf => ScenarioImageProperty_evaluate leaf session
  end.

(** [all] and [any] on a list of booleans. *)
Definition py_all (l : list bool) : bool := forallb id l.
Definition py_any (l : list bool) : bool := existsb id l.

(** [Expression.evaluate]: the leaves evaluate themselves, a composite
    evaluates all its children into a list before [all]/[any] reads it. *)
Fixpoint evaluate (self : Expression) (session : Session) : result bool :=
  match self with
  | Requirement leaf => ScenarioRequirement_evaluate leaf session
  | BooleanExpression operator expressions =>
      let children := comprehension (fun expression => evaluate expression session) in
      match operator with
      | AND => bs ← children expressions; Ok (py_all bs)
      | OR => bs ← children expressions; Ok (py_any bs)
      | NOT =>
          match expressions with
          | [] => Raise IndexError
          | expression :: _ => b ← evaluate expression session; Ok (negb b)
          end
      end
  end.

Record Scenario : Set := mkScenario {
  scenario_name : string;
  scenario_expression : option Expression
}.

(** [Scenario.__init__], [Scenario.set_expression], [Scenario.evaluate] *)
Definition Scenario_init (name : string) : Scenario := mkScenario name None.

Definition set_expression (self : Scenario) (expression : Expression) : Scenario :=
  mkScenario (scenario_name self) (Some expression).

Definition Scenario_evaluate (self : Scenario) (session : Session) : result bool :=
  match scenario_expression self with
  | None => Raise AttributeError
  | Some expression => evaluate expression session
  end.

(** ** The event library ([besser/bot/library/event/event_library.py]) *)

Module Bot.

(** Modelled from the spec: the session, intent, file and image-object
    classes of [besser/bot/core] are not part of the sources at hand.
    The session holds a mapping of boolean flags (keys [predicted_intent],
    [file], [image_prediction]), the last predicted intent, the last
    received file with its MIME-like [type], and the last perception
    snapshot; an image object is identified by its name. *)

Record Intent : Set := mkIntent { intent_name : string }.

Record IntentClassifierPrediction : Set := mkIntentClassifierPrediction {
  icp_intent : Intent
}.

Record File : Set := mkFile { file_type : string }.

Record ImageObject : Set := mkImageObject { image_object_name : string }.

Record ImageObjectPrediction : Set := mkImageObjectPrediction {
  iop_image_object : ImageObject;
  iop_score : float
}.

Record ImagePrediction : Set := mkImagePrediction {
  image_object_predictions : list ImageObjectPrediction
}.

Record Session : Type := mkSession {
  flags : gmap string bool;
  predicted_intent : option IntentClassifierPrediction;
  file : option File;
  image_prediction : option ImagePrediction
}.

(** The values an [event_params] dict holds. *)
Inductive param : Set :=
  | ParamValue (v : pyvalue)
  | ParamList (l : list pyvalue)
  | ParamIntent (i : Intent)
  | ParamImageObject (o : ImageObject).

(** [d[key]] *)
Definition subscript {V} (d : gmap string V) (key : string) : result V :=
  match d !! key with
  | Some v => Ok v
  | None => Raise KeyError
  end.

(** [obj.attr] on a field that may hold [None]. *)
Definition attribute_of {A B} (obj : option A) (attr : A -> B) : result B :=
  match obj with
  | Some o => Ok (attr o)
  | None => Raise AttributeError
  end.

(** [p.name] *)
Definition param_name (p : param) : result string :=
  match p with
  | ParamIntent i => Ok (intent_name i)
  | ParamImageObject o => Ok (image_object_name o)
  | _ => Raise AttributeError
  end.

(** [needle in hay] on two strings *)
Fixpoint str_contains (needle hay : string) : bool :=
  String.prefix needle hay ||
  match hay with
  | EmptyString => false
  | String _ hay' => str_contains needle hay'
  end.

(** [s in p] for a string [s] *)
Definition str_in (s : string) (p : param) : result bool :=
  match p with
  | ParamList l => Ok (existsb (py_eq (VStr s)) l)
  | ParamValue (VStr t) => Ok (str_contains s t)
  | _ => Raise TypeError
  end.

(** [s == p] for a string [s] *)
Definition str_eq (s : string) (p : param) : bool :=
  match p with
  | ParamValue v => py_eq (VStr s) v
  | _ => false
  end.

(** [a or b]: [b] is evaluated only when [a] is false. *)
Definition py_or (a b : result bool) : result bool :=
  x ← a; if x : bool then Ok true else b.

(** [auto] *)
Definition auto (session : Session) (event_params : gmap string param) : result pyvalue :=
  Ok (VBool true).

(** [intent_matched]: there is no [return] after the [if]. *)
Definition intent_matched (session : Session) (event_params : gmap string param)
    : result pyvalue :=
  flag ← subscript (flags session) "predicted_intent";
  if flag : bool then
    target_intent ← subscript event_params "intent";
    matched_intent ← attribute_of (predicted_intent session) icp_intent;
    target_name ← param_name target_intent;
    Ok (VBool (String.eqb target_name (intent_name matched_intent)))
  else Ok VNone.

(** [file_received] *)
Definition file_received (session : Session) (event_params : gmap string param)
    : result pyvalue :=
  flag ← subscript (flags session) "file";
  if flag : bool then
    match event_params !! "allowed_types" with
    | Some allowed_types =>
        type ← attribute_of (file session) file_type;
        allowed ← py_or (str_in type allowed_types) (Ok (str_eq type allowed_types));
        if allowed : bool then Ok (VBool true) else Ok (VBool false)
    | None => Ok (VBool true)
    end
  else Ok (VBool false).

(** Modelled from the spec: [ImageObject.__eq__], whose class is not among
    the sources; identity is the name, and nothing but an image object is
    equal to one. *)
Definition ImageObject_eq (self : ImageObject) (other : param) : bool :=
  match other with
  | ParamImageObject o => String.eqb (image_object_name self) (image_object_name o)
  | _ => false
  end.

(** [score >= p] *)
Definition score_ge (score : float) (p : param) : result bool :=
  match p with
  | ParamValue v => py_ge (VFloat score) v
  | _ => Raise TypeError
  end.

(** The loop of [image_object_detected]. *)
Fixpoint detection_loop (target_image_object target_score : param)
    (predictions : list ImageObjectPrediction) : result bool :=
  match predictions with
  | [] => Ok false
  | image_object_prediction :: rest =>
      hit ← py_and (Ok (ImageObject_eq (iop_image_object image_object_prediction)
                                       target_image_object))
                   (score_ge (iop_score image_object_prediction) target_score);
      if hit : bool then Ok true
      else detection_loop target_image_object target_score rest
  end.

(** [image_object_detected] *)
Definition image_object_detected (session : Session) (event_params : gmap string param)
    : result pyvalue :=
  flag ← subscript (flags session) "image_prediction";
  if flag : bool then
    target_image_object ← subscript event_params "image_object";
    target_score ← subscript event_params "score";
    predictions ← attribute_of (image_prediction session) image_object_predictions;
    found ← detection_loop target_image_object target_score predictions;
    if found : bool then Ok (VBool true) else Ok (VBool false)
  else Ok (VBool false).

End Bot.

(** * Vocabulary of the properties *)

(** ** Thresholds and counts *)

(** [x >= y] on two floats: they are ordered and [x] is not the smaller. *)
Definition float_ge (x y : float) : bool :=
  match float_compare x y with
  | Some Gt | Some Eq => true
  | _ => false
  end.

(** An object-detection result qualifies for a leaf when its entity equals
    the leaf's entity and its score is at least the threshold. *)
Definition qualifying (image_entity : ImageRequirement) (s : float)
    (p : ImageObjectPrediction) : bool :=
  ImageRequirement_eq (iop_image_entity p) (ObjImage image_entity)
  && float_ge (iop_score p) s.

(** The number of qualifying results of a snapshot. *)
Fixpoint qualifying_count (image_entity : ImageRequirement) (s : float)
    (l : list ImageObjectPrediction) : Z :=
  match l with
  | [] => 0
  | p :: l' =>
      (if qualifying image_entity s p then 1 else 0) + qualifying_count image_entity s l'
  end.

(** A property-detection result matches a leaf when its property equals
    the leaf's property and its score is at least the threshold. *)
Definition property_match (image_property : ImageRequirement) (s : float)
    (p : ImagePropertyPrediction) : bool :=
  ImageRequirement_eq (ipp_image_property p) (ObjImage image_property)
  && float_ge (ipp_score p) s.

(** ** Attribute lists *)

(** The attributes read [score = s], [min = m], [max = M]. *)
Definition reads (attrs : list Attribute) (s : float) (m M : Z) : Prop :=
  get_attribute_value attrs "score" = VFloat s
  /\ get_attribute_value attrs "min" = VInt m
  /\ get_attribute_value attrs "max" = VInt M.

(** The same of the stored attributes of an entity leaf. *)
Definition entity_leaf_reads (self : ScenarioImageEntity) (s : float) (m M : Z) : Prop :=
  reads (sie_attributes self) s m M.

(** How many attributes of the list carry the name. *)
Definition occurrences (name : string) (attrs : list Attribute) : nat :=
  length (List.filter (fun a => String.eqb (attr_name a) name) attrs).

(** The attribute that an item of a dict becomes once it is accepted. *)
Definition to_attribute (item : string * pyvalue) : Attribute :=
  mkAttribute item.1 item.2.

(** The loop that turns the items of a dict into checked attributes, as
    the constructors of the owner classes run it. *)
Definition build (dictionary : gmap string pytype) (attributes : items)
    : result (list Attribute) :=
  comprehension (fun '(attr_name, attr_value) =>
                   checked_attribute dictionary attr_name attr_value) attributes.

(** Every attribute of the list passed the check of [dictionary]. *)
Definition checked (dictionary : gmap string pytype) (attrs : list Attribute) : Prop :=
  Forall (fun a => dictionary !! attr_name a = Some (type_of (attr_value a))) attrs.

(** An attribute that the dictionary does not admit: the name is not a
    key, or the type declared for the name is not the type of the value. *)
Definition inadmissible (dictionary : gmap string pytype) (name : string)
    (value : pyvalue) : Prop :=
  dictionary !! name = None
  \/ exists t, dictionary !! name = Some t /\ t <> type_of value.

(** The two [append] calls that supply the defaults of [min] and [max]. *)
Definition with_defaults (attrs : list Attribute) : list Attribute :=
  let attrs1 :=
    if name_in "min" attrs then attrs else attrs ++ [mkAttribute "min" (VInt 1)] in
  if name_in "max" attrs1 then attrs1 else attrs1 ++ [mkAttribute "max" (VInt 0)].

(** ** Expressions returned by the constructors *)

#[warnings="-register-all"] Inductive constructed : Expression -> Prop :=
  | constructed_entity name image_entity attributes leaf :
      ScenarioImageEntity_init name image_entity attributes = Ok leaf ->
      constructed (Requirement (RequireImageEntity leaf))
  | constructed_property name image_property attributes leaf :
      ScenarioImageProperty_init name image_property attributes = Ok leaf ->
      constructed (Requirement (RequireImageProperty leaf))
  | constructed_boolean operator expressions self :
      Forall constructed expressions ->
      BooleanExpression_init operator expressions = Ok self ->
      constructed self.

(** ** Sample vocabulary and sessions *)

Definition cat : ImageRequirement := mkImageRequirement ImageEntity "cat" [].
Definition dog : ImageRequirement := mkImageRequirement ImageEntity "dog" [].
Definition sunny : ImageRequirement := mkImageRequirement ImageProperty "sunny" [].

(** A snapshot with [n] cats detected at score 0.9, one cat below the
    threshold of 0.5, one dog, and the property sunny at 0.75. *)
Definition cats_snapshot (n : nat) : ImagePrediction :=
  mkImagePrediction
    (mkImageObjectPrediction cat 0.25 :: mkImageObjectPrediction dog 0.9
       :: repeat (mkImageObjectPrediction cat 0.9) n)
    [mkImagePropertyPrediction sunny 0.75].

Definition cats (n : nat) : Session := mkSession (Some (cats_snapshot n)).

Definition no_snapshot : Session := mkSession None.

Definition leaf_2_5 : ScenarioImageEntity :=
  mkScenarioImageEntity "some cats" cat
    [mkAttribute "score" (VFloat 0.5); mkAttribute "min" (VInt 2); mkAttribute "max" (VInt 5)].

Definition leaf_0_0 : ScenarioImageEntity :=
  mkScenarioImageEntity "any cat" cat
    [mkAttribute "score" (VFloat 0.5); mkAttribute "min" (VInt 0); mkAttribute "max" (VInt 0)].

Definition leaf_sunny : ScenarioImageProperty :=
  mkScenarioImageProperty "sunny day" sunny [mkAttribute "score" (VFloat 0.7)].

Definition idle_flags : gmap string bool :=
  {[ "predicted_intent" := false; "file" := false; "image_prediction" := false ]}.

(** A session on which nothing has been received yet: every flag is
    present and false. *)
Definition idle_session : Bot.Session := Bot.mkSession idle_flags None None None.

Definition greeting_params : gmap string Bot.param :=
  {[ "intent" := Bot.ParamIntent (Bot.mkIntent "greeting") ]}.

(** * Further operations of the same files *)

(** [ImageEntity.get_attribute_value] and [ImageProperty.get_attribute_value] *)
Definition ImageRequirement_get_attribute_value (self : ImageRequirement)
    (name : string) : pyvalue :=
  get_attribute_value (req_attributes self) name.

(** The loop of [ImageProperty.has_attribute]: [True] at the first attribute
    of that name; the method has no [return] after the loop. *)
Fixpoint has_attribute (attributes : list Attribute) (name : string) : pyvalue :=
  match attributes with
  | [] => VNone
  | attribute :: rest =>
      if String.eqb (attr_name attribute) name then VBool true
      else has_attribute rest name
  end.

(** [ImageProperty.has_attribute] *)
Definition ImageProperty_has_attribute (self : ImageRequirement) (name : string) : pyvalue :=
  has_attribute (req_attributes self) name.

(** The functions [AND], [OR] and [NOT] of [boolean_expression.py], which
    share their names with the members of the enumeration. *)
Definition mk_AND (expressions : list Expression) : result Expression :=
  BooleanExpression_init AND expressions.

Definition mk_OR (expressions : list Expression) : result Expression :=
  BooleanExpression_init OR expressions.

Definition mk_NOT (expression : Expression) : result Expression :=
  BooleanExpression_init NOT [expression].

(** The items of a dict that holds the attributes of a list, in order. *)
Definition to_items (attrs : list Attribute) : items :=
  (fun a => (attr_name a, attr_value a)) <$> attrs.

(** A session equal to [session] but for its object-detection results. *)
Definition with_object_predictions (session : Session)
    (l : list ImageObjectPrediction) : Session :=
  match image_prediction session with
  | Some snapshot => mkSession (Some (mkImagePrediction l (image_property_predictions snapshot)))
  | None => session
  end.

(** A session equal to [session] but for its property-detection results. *)
Definition with_property_predictions (session : Session)
    (l : list ImagePropertyPrediction) : Session :=
  match image_prediction session with
  | Some snapshot => mkSession (Some (mkImagePrediction (image_object_predictions snapshot) l))
  | None => session
  end.

(** An entity leaf whose attribute list was emptied after construction. *)
Definition leaf_emptied : ScenarioImageEntity := mkScenarioImageEntity "emptied" cat [].

(** A session of the bot with every flag raised, a predicted intent, a
    received file and a snapshot with one detection. *)
Definition busy_session : Bot.Session :=
  Bot.mkSession
    {[ "predicted_intent" := true; "file" := true; "image_prediction" := true ]}
    (Some (Bot.mkIntentClassifierPrediction (Bot.mkIntent "greeting")))
    (Some (Bot.mkFile "pdf"))
    (Some (Bot.mkImagePrediction [Bot.mkImageObjectPrediction (Bot.mkImageObject "cat") 0.9])).

(** One step of the error monad on a computed head. *)
Ltac step := cbn [mbind result_bind].

(** * Properties *)

(** ** Comparison of integers and of floats *)

Lemma py_eq_int (a b : Z) : py_eq (VInt a) (VInt b) = (a =? b).
Proof.
  unfold py_eq; simpl.
  destruct (Z.eqb_spec a b) as [->|Hne].
  - now rewrite Z.compare_refl.
  - destruct (a ?= b) eqn:E; try reflexivity.
    apply Z.compare_eq in E. contradiction.
Qed.

Lemma py_lt_int (a b : Z) : py_lt (VInt a) (VInt b) = Ok (a <? b).
Proof. unfold py_lt, Z.ltb; simpl. destruct (a ?= b); reflexivity. Qed.

Lemma py_le_int (a b : Z) : py_le (VInt a) (VInt b) = Ok (a <=? b).
Proof. unfold py_le, Z.leb; simpl. destruct (a ?= b); reflexivity. Qed.

Lemma py_gt_int (a b : Z) : py_gt (VInt a) (VInt b) = Ok (a >? b).
Proof. unfold py_gt, Z.gtb; simpl. destruct (a ?= b); reflexivity. Qed.

Lemma py_ge_int (a b : Z) : py_ge (VInt a) (VInt b) = Ok (a >=? b).
Proof. unfold py_ge, Z.geb; simpl. destruct (a ?= b); reflexivity. Qed.

Lemma py_ge_float (x y : float) : py_ge (VFloat x) (VFloat y) = Ok (float_ge x y).
Proof.
  unfold py_ge, float_ge; simpl.
  destruct (float_compare x y) as [[]|]; reflexivity.
Qed.

Lemma py_ne_int (a b : Z) : py_ne (VInt a) (VInt b) = negb (a =? b).
Proof. unfold py_ne. now rewrite py_eq_int. Qed.

(** ** Counting the qualifying detections *)

Lemma qualifying_count_nonneg image_entity s l : 0 <= qualifying_count image_entity s l.
Proof. induction l as [|p l IH]; simpl; [lia|]. destruct (qualifying _ _ p); lia. Qed.

Lemma comprehension_if_qualifies image_entity s l :
  comprehension_if (qualifies image_entity (VFloat s)) l
  = Ok (List.filter (qualifying image_entity s) l).
Proof.
  induction l as [|p l IH]; [reflexivity|].
  simpl. rewrite IH. unfold qualifies, qualifying.
  rewrite py_ge_float.
  destruct (ImageRequirement_eq _ _); simpl; [|reflexivity].
  destruct (float_ge _ _); reflexivity.
Qed.

Lemma length_filter_qualifying image_entity s l :
  Z.of_nat (length (List.filter (qualifying image_entity s) l))
  = qualifying_count image_entity s l.
Proof.
  induction l as [|p l IH]; [reflexivity|].
  simpl. destruct (qualifying image_entity s p); simpl length; lia.
Qed.

(** The decision table of [ScenarioImageEntity.evaluate] as one equation. *)
Lemma ScenarioImageEntity_evaluate_table self s m M session snapshot :
  entity_leaf_reads self s m M ->
  image_prediction session = Some snapshot ->
  let count := qualifying_count (sie_image_entity self) s
                 (image_object_predictions snapshot) in
  ScenarioImageEntity_evaluate self session
  = Ok (if count =? 0 then false
        else (m =? 0) && (M =? 0)
             || (m =? 0) && (count <=? M)
             || (M =? 0) && (count >=? m)
             || (m <=? count) && (count <=? M)).
Proof.
  intros (Hs & Hm & HM) Hsnap count.
  unfold ScenarioImageEntity_evaluate.
  rewrite Hsnap, Hs, Hm, HM, comprehension_if_qualifies.
  step. unfold py_and.
  rewrite length_filter_qualifying. fold count.
  rewrite !py_eq_int, !py_le_int, py_ge_int.
  step.
  destruct (count =? 0); [reflexivity|].
  destruct (m =? 0), (M =? 0); simpl; try reflexivity.
  - destruct (count <=? M); simpl; [reflexivity|].
    destruct (m <=? count); reflexivity.
  - destruct (count >=? m); simpl; [reflexivity|].
    destruct (m <=? count); simpl; [|reflexivity].
    destruct (count <=? M); reflexivity.
  - destruct (m <=? count); simpl; [|reflexivity].
    destruct (count <=? M); reflexivity.
Qed.

(** ** Checked attributes and leaf construction *)

Lemma checked_attribute_Ok dictionary name value a :
  checked_attribute dictionary name value = Ok a ->
  a = mkAttribute name value /\ dictionary !! name = Some (type_of value).
Proof.
  unfold checked_attribute.
  destruct (dictionary !! name) as [t|]; [|discriminate].
  case_bool_decide as Ht; [discriminate|].
  intros [= <-]. split; [reflexivity|].
  f_equal. destruct (decide (t = type_of value)); [assumption|contradiction].
Qed.

Lemma checked_attribute_Raise dictionary name value e :
  checked_attribute dictionary name value = Raise e -> e = ValueError.
Proof.
  unfold checked_attribute.
  destruct (dictionary !! name) as [t|]; [|congruence].
  case_bool_decide; congruence.
Qed.

Lemma checked_attribute_unknown dictionary name value :
  dictionary !! name = None ->
  checked_attribute dictionary name value = Raise ValueError.
Proof. unfold checked_attribute. now intros ->. Qed.

Lemma checked_attribute_mismatch dictionary name value t :
  dictionary !! name = Some t -> t <> type_of value ->
  checked_attribute dictionary name value = Raise ValueError.
Proof.
  unfold checked_attribute. intros -> Ht.
  now rewrite bool_decide_eq_true_2.
Qed.

Lemma comprehension_checked_Ok dictionary attributes attrs :
  build dictionary attributes = Ok attrs ->
  attrs = to_attribute <$> attributes /\ checked dictionary attrs.
Proof.
  revert attrs. induction attributes as [|[n v] l IH]; intros attrs.
  - intros [= <-]. split; [reflexivity|constructor].
  - unfold build; simpl.
    destruct (checked_attribute dictionary n v) as [a|] eqn:Ha; [|discriminate].
    step.
    fold (build dictionary l). destruct (build dictionary l) as [ys|] eqn:Hl; [|discriminate].
    intros [= <-].
    apply checked_attribute_Ok in Ha as [-> Hty].
    destruct (IH ys eq_refl) as [-> Hys].
    split; [reflexivity|]. constructor; assumption.
Qed.

Lemma comprehension_checked_Raise dictionary attributes e :
  build dictionary attributes = Raise e -> e = ValueError.
Proof.
  induction attributes as [|[n v] l IH]; [discriminate|].
  unfold build; simpl.
  destruct (checked_attribute dictionary n v) as [a|e'] eqn:Ha.
  - step. fold (build dictionary l).
    destruct (build dictionary l); [discriminate|].
    intros [= <-]. now apply IH.
  - intros [= <-]. now apply checked_attribute_Raise in Ha.
Qed.

Lemma comprehension_checked_rejects dictionary attributes n v :
  (n, v) ∈ attributes ->
  checked_attribute dictionary n v = Raise ValueError ->
  build dictionary attributes = Raise ValueError.
Proof.
  intros Hin Hbad.
  destruct (build dictionary attributes) as [attrs|e] eqn:Hb.
  - exfalso. apply comprehension_checked_Ok in Hb as [-> Hc].
    unfold checked in Hc. rewrite Forall_fmap, Forall_forall in Hc.
    specialize (Hc _ Hin). simpl in Hc.
    unfold checked_attribute in Hbad. rewrite Hc in Hbad.
    rewrite bool_decide_eq_false_2 in Hbad; [discriminate|auto].
  - f_equal. now apply comprehension_checked_Raise in Hb.
Qed.

Lemma name_in_spec name attrs :
  name_in name attrs = true <-> name ∈ attr_name <$> attrs.
Proof. unfold name_in. apply bool_decide_eq_true. Qed.

Lemma name_in_items name attributes :
  name_in name (to_attribute <$> attributes)
  = bool_decide (is_Some (items_get attributes name)).
Proof.
  unfold name_in. apply bool_decide_ext.
  induction attributes as [|[k v] l IH].
  - split; [intros []%elem_of_nil|intros [? ?]; discriminate].
  - cbn [fmap list_fmap to_attribute attr_name fst items_get].
    rewrite elem_of_cons, IH.
    destruct (String.eqb_spec k name) as [->|Hne]; [split; eauto|].
    split; [intros [?|?]; [congruence|assumption]|auto].
Qed.

Lemma get_attribute_value_items name attributes :
  get_attribute_value (to_attribute <$> attributes) name
  = default VNone (items_get attributes name).
Proof.
  induction attributes as [|[k v] l IH]; [reflexivity|].
  simpl. destruct (String.eqb k name); [reflexivity|assumption].
Qed.

Lemma name_in_cons name a attrs :
  name_in name (a :: attrs) = String.eqb (attr_name a) name || name_in name attrs.
Proof.
  apply eq_true_iff_eq. rewrite orb_true_iff, !name_in_spec, String.eqb_eq.
  cbn [fmap list_fmap]. rewrite elem_of_cons.
  split; (intros [?|?]; [left; congruence|right; assumption]).
Qed.

Lemma name_in_nil name : name_in name [] = false.
Proof. apply not_true_is_false. rewrite name_in_spec. apply not_elem_of_nil. Qed.

Lemma get_attribute_value_app attrs a name :
  get_attribute_value (attrs ++ [a]) name
  = if name_in name attrs then get_attribute_value attrs name
    else if String.eqb (attr_name a) name then attr_value a else VNone.
Proof.
  induction attrs as [|b l IH].
  - rewrite name_in_nil. reflexivity.
  - rewrite name_in_cons. cbn [app get_attribute_value].
    destruct (String.eqb (attr_name b) name); [reflexivity|]. apply IH.
Qed.

Lemma name_in_app attrs a name :
  name_in name (attrs ++ [a]) = name_in name attrs || String.eqb (attr_name a) name.
Proof.
  apply eq_true_iff_eq. rewrite orb_true_iff, !name_in_spec, fmap_app, elem_of_app.
  simpl. rewrite list_elem_of_singleton, String.eqb_eq.
  split; (intros [?|?]; [left; assumption|right; congruence]).
Qed.

Lemma get_attribute_value_checked dictionary attrs name t :
  checked dictionary attrs -> name_in name attrs = true ->
  dictionary !! name = Some t ->
  type_of (get_attribute_value attrs name) = t.
Proof.
  unfold checked. intros Hc Hin Ht. apply name_in_spec in Hin.
  induction Hc as [|a l Ha Hl IH]; [now apply elem_of_nil in Hin|].
  simpl. destruct (String.eqb_spec (attr_name a) name) as [<-|Hne].
  - congruence.
  - apply IH. simpl in Hin. apply elem_of_cons in Hin as [->|]; [contradiction|assumption].
Qed.

(** ** The constructor of an entity leaf *)

Lemma entity_dictionary_lookup name t :
  ScenarioImageEntityAttribute_dictionary !! name = Some t <->
  (name = "score" /\ t = TFloat) \/ (name = "min" /\ t = TInt) \/ (name = "max" /\ t = TInt).
Proof.
  unfold ScenarioImageEntityAttribute_dictionary.
  rewrite !lookup_insert_Some, lookup_singleton_Some.
  split.
  - intros [[<- <-]|[? [[<- <-]|[? [<- <-]]]]]; auto.
  - intros [[-> ->]|[[-> ->]|[-> ->]]].
    + left; auto.
    + right. split; [discriminate|]. left; auto.
    + right. split; [discriminate|]. right. split; [discriminate|auto].
Qed.

Lemma default_min_attribute :
  ScenarioImageEntityAttribute_init "min" (VInt 1) = Ok (mkAttribute "min" (VInt 1)).
Proof. reflexivity. Qed.

Lemma default_max_attribute :
  ScenarioImageEntityAttribute_init "max" (VInt 0) = Ok (mkAttribute "max" (VInt 0)).
Proof. reflexivity. Qed.

Lemma ScenarioImageEntity_init_unfold name image_entity attributes :
  ScenarioImageEntity_init name image_entity attributes
  = match comprehension (fun '(attr_name, attr_value) =>
                           ScenarioImageEntityAttribute_init attr_name attr_value) attributes with
    | Raise e => Raise e
    | Ok attrs0 =>
        if name_in "score" attrs0 then
          let attrs := with_defaults attrs0 in
          let min := get_attribute_value attrs "min" in
          let max := get_attribute_value attrs "max" in
          too_small ← py_lt min (VInt 1);
          if too_small : bool then Raise ValueError else
          crossed ← py_and (py_gt min max) (Ok (py_ne max (VInt 0)));
          if crossed : bool then Raise ValueError else
          Ok (mkScenarioImageEntity name image_entity attrs)
        else Raise ValueError
    end.
Proof.
  unfold ScenarioImageEntity_init, with_defaults.
  destruct (comprehension _ attributes) as [attrs0|e]; [|reflexivity].
  step.
  destruct (name_in "score" attrs0); [|reflexivity]. cbn [negb].
  destruct (name_in "min" attrs0); cbn [negb];
    rewrite ?default_min_attribute; step;
    match goal with |- context [name_in "max" ?l] => destruct (name_in "max" l) end;
    cbn [negb]; rewrite ?default_max_attribute; reflexivity.
Qed.

Lemma get_with_defaults_min attrs :
  get_attribute_value (with_defaults attrs) "min"
  = if name_in "min" attrs then get_attribute_value attrs "min" else VInt 1.
Proof.
  unfold with_defaults.
  destruct (name_in "min" attrs) eqn:Hmin.
  - destruct (name_in "max" attrs); [reflexivity|].
    now rewrite get_attribute_value_app, Hmin.
  - rewrite name_in_app. cbn [attr_name String.eqb Ascii.eqb Bool.eqb orb andb].
    rewrite orb_false_r.
    destruct (name_in "max" attrs);
      rewrite ?get_attribute_value_app, ?name_in_app, Hmin; reflexivity.
Qed.

Lemma get_with_defaults_max attrs :
  get_attribute_value (with_defaults attrs) "max"
  = if name_in "max" attrs then get_attribute_value attrs "max" else VInt 0.
Proof.
  unfold with_defaults.
  destruct (name_in "min" attrs) eqn:Hmin.
  - destruct (name_in "max" attrs) eqn:Hmax; [reflexivity|].
    now rewrite get_attribute_value_app, Hmax.
  - rewrite name_in_app. cbn [attr_name String.eqb Ascii.eqb Bool.eqb orb andb].
    rewrite orb_false_r.
    destruct (name_in "max" attrs) eqn:Hmax.
    + now rewrite get_attribute_value_app, Hmax.
    + rewrite !get_attribute_value_app, name_in_app, Hmax. reflexivity.
Qed.

Lemma get_with_defaults_score attrs :
  name_in "score" attrs = true ->
  get_attribute_value (with_defaults attrs) "score" = get_attribute_value attrs "score".
Proof.
  intros Hs. unfold with_defaults.
  destruct (name_in "min" attrs);
    match goal with |- context [name_in "max" ?l] => destruct (name_in "max" l) end;
    rewrite ?get_attribute_value_app, ?name_in_app, ?Hs; reflexivity.
Qed.

(** What the constructor reads back: the given values, and the defaults
    for [min] and [max] when the dict has no such key. *)
Lemma checked_reads attrs0 :
  checked ScenarioImageEntityAttribute_dictionary attrs0 ->
  name_in "score" attrs0 = true ->
  exists s m M,
    reads (with_defaults attrs0) s m M
    /\ get_attribute_value attrs0 "score" = VFloat s
    /\ (if name_in "min" attrs0 then get_attribute_value attrs0 "min" else VInt 1) = VInt m
    /\ (if name_in "max" attrs0 then get_attribute_value attrs0 "max" else VInt 0) = VInt M.
Proof.
  intros Hc Hs. unfold reads.
  rewrite get_with_defaults_score, get_with_defaults_min, get_with_defaults_max by assumption.
  pose proof (get_attribute_value_checked _ _ "score" TFloat Hc Hs eq_refl) as Ts.
  destruct (get_attribute_value attrs0 "score") as [| | |s|]; try discriminate.
  assert (exists m, (if name_in "min" attrs0 then get_attribute_value attrs0 "min" else VInt 1)
                    = VInt m) as [m ->].
  { destruct (name_in "min" attrs0) eqn:Hm; [|eauto].
    pose proof (get_attribute_value_checked _ _ "min" TInt Hc Hm eq_refl) as Tm.
    destruct (get_attribute_value attrs0 "min"); try discriminate. eauto. }
  assert (exists M, (if name_in "max" attrs0 then get_attribute_value attrs0 "max" else VInt 0)
                    = VInt M) as [M ->].
  { destruct (name_in "max" attrs0) eqn:Hm; [|eauto].
    pose proof (get_attribute_value_checked _ _ "max" TInt Hc Hm eq_refl) as Tm.
    destruct (get_attribute_value attrs0 "max"); try discriminate. eauto. }
  exists s, m, M. auto.
Qed.

(** A successful construction: the attributes are the checked items
    followed by the defaults, and the range rules hold. *)
Lemma ScenarioImageEntity_init_Ok name image_entity attributes self :
  ScenarioImageEntity_init name image_entity attributes = Ok self ->
  let attrs0 := to_attribute <$> attributes in
  self = mkScenarioImageEntity name image_entity (with_defaults attrs0)
  /\ checked ScenarioImageEntityAttribute_dictionary attrs0
  /\ name_in "score" attrs0 = true
  /\ exists s m M,
       entity_leaf_reads self s m M
       /\ (if name_in "min" attrs0 then get_attribute_value attrs0 "min" else VInt 1) = VInt m
       /\ (if name_in "max" attrs0 then get_attribute_value attrs0 "max" else VInt 0) = VInt M
       /\ 1 <= m /\ (M = 0 \/ m <= M).
Proof.
  rewrite ScenarioImageEntity_init_unfold.
  destruct (comprehension _ attributes) as [attrs0|] eqn:Hc; [|discriminate].
  apply (comprehension_checked_Ok ScenarioImageEntityAttribute_dictionary) in Hc as [-> Hc].
  destruct (name_in "score" _) eqn:Hs; [|discriminate].
  destruct (checked_reads _ Hc Hs) as (s & m & M & (Rs & Rm & RM) & Gs & Gm & GM).
  cbv zeta. rewrite Rm, RM, py_lt_int. step.
  destruct (m <? 1) eqn:Hm; [discriminate|].
  unfold py_and. rewrite py_gt_int, py_ne_int. step.
  destruct (m >? M) eqn:HmM; step.
  - destruct (M =? 0) eqn:HM; [|discriminate]. intros [= <-].
    repeat split; try assumption. exists s, m, M. unfold entity_leaf_reads, reads. cbn.
    repeat split; try assumption; lia.
  - intros [= <-].
    repeat split; try assumption. exists s, m, M. unfold entity_leaf_reads, reads. cbn.
    repeat split; try assumption; lia.
Qed.

(** A failed construction fails with [ValueError]. *)
Lemma ScenarioImageEntity_init_Raise name image_entity attributes e :
  ScenarioImageEntity_init name image_entity attributes = Raise e -> e = ValueError.
Proof.
  rewrite ScenarioImageEntity_init_unfold.
  destruct (comprehension _ attributes) as [attrs0|e'] eqn:Hc.
  - apply (comprehension_checked_Ok ScenarioImageEntityAttribute_dictionary) in Hc as [-> Hc].
    destruct (name_in "score" _) eqn:Hs; [|congruence].
    destruct (checked_reads _ Hc Hs) as (s & m & M & (Rs & Rm & RM) & _).
    cbv zeta. rewrite Rm, RM, py_lt_int. step.
    destruct (m <? 1); [congruence|].
    unfold py_and. rewrite py_gt_int, py_ne_int. step.
    destruct (m >? M); step; [destruct (negb _)|]; congruence.
  - intros [= <-].
    now apply (comprehension_checked_Raise ScenarioImageEntityAttribute_dictionary) in Hc.
Qed.

(** ** The constructor and the loop of a property leaf *)

Lemma ScenarioImageProperty_init_Ok name image_property attributes self :
  ScenarioImageProperty_init name image_property attributes = Ok self ->
  self = mkScenarioImageProperty name image_property (to_attribute <$> attributes)
  /\ exists s, get_attribute_value (sip_attributes self) "score" = VFloat s.
Proof.
  unfold ScenarioImageProperty_init.
  destruct (comprehension _ attributes) as [attrs0|] eqn:Hc; [|discriminate].
  apply (comprehension_checked_Ok ScenarioImagePropertyAttribute_dictionary) in Hc as [-> Hc].
  step.
  destruct (name_in "score" _) eqn:Hs; [|discriminate].
  intros [= <-]. split; [reflexivity|]. cbn [sip_attributes].
  pose proof (get_attribute_value_checked _ _ "score" TFloat Hc Hs eq_refl) as Ts.
  destruct (get_attribute_value _ "score") as [| | |s|]; try discriminate. eauto.
Qed.

Lemma ScenarioImageProperty_init_Raise name image_property attributes e :
  ScenarioImageProperty_init name image_property attributes = Raise e -> e = ValueError.
Proof.
  unfold ScenarioImageProperty_init.
  destruct (comprehension _ attributes) as [attrs0|e'] eqn:Hc; step.
  - destruct (negb _); congruence.
  - intros [= <-].
    now apply (comprehension_checked_Raise ScenarioImagePropertyAttribute_dictionary) in Hc.
Qed.

Lemma property_loop_float image_property s l :
  property_loop image_property (VFloat s) l
  = Ok (existsb (property_match image_property s) l).
Proof.
  induction l as [|p l IH]; [reflexivity|].
  cbn [property_loop existsb]. unfold py_and, property_match at 1.
  rewrite py_ge_float. step.
  destruct (ImageRequirement_eq _ _); cbn [andb orb]; [|exact IH].
  destruct (float_ge _ _); cbn [orb]; [reflexivity|exact IH].
Qed.

(** ** Expressions built by the constructors *)

Lemma Expression_induction (P : Expression -> Prop) :
  (forall leaf, P (Requirement leaf)) ->
  (forall operator expressions,
      Forall P expressions -> P (BooleanExpression operator expressions)) ->
  forall e, P e.
Proof.
  intros Hleaf Hnode. fix IH 1. intros [operator expressions|leaf].
  - apply Hnode. induction expressions as [|e l IHl]; constructor; [apply IH|exact IHl].
  - apply Hleaf.
Qed.

Lemma BooleanExpression_init_Ok operator expressions self :
  BooleanExpression_init operator expressions = Ok self ->
  self = BooleanExpression operator expressions
  /\ match operator with
     | AND | OR => (2 <= length expressions)%nat
     | NOT => length expressions = 1%nat
     end.
Proof.
  unfold BooleanExpression_init.
  destruct operator; cbn [andb]; repeat case_bool_decide; try discriminate;
    intros [= <-]; (split; [reflexivity|lia]).
Qed.

Lemma constructed_boolean_inv operator expressions :
  constructed (BooleanExpression operator expressions) ->
  Forall constructed expressions
  /\ match operator with
     | AND | OR => (2 <= length expressions)%nat
     | NOT => length expressions = 1%nat
     end.
Proof.
  intros H. inversion H as [| |operator' expressions' self Hall Hinit Hself]; subst.
  apply BooleanExpression_init_Ok in Hinit as [[= -> ->] Hlen]. auto.
Qed.

Lemma evaluate_boolean operator expressions session :
  evaluate (BooleanExpression operator expressions) session
  = match operator with
    | AND => bs ← comprehension (fun e => evaluate e session) expressions; Ok (py_all bs)
    | OR => bs ← comprehension (fun e => evaluate e session) expressions; Ok (py_any bs)
    | NOT =>
        match expressions with
        | [] => Raise IndexError
        | expression :: _ => b ← evaluate expression session; Ok (negb b)
        end
    end.
Proof. reflexivity. Qed.

Lemma comprehension_Ok {A B} (f : A -> result B) l :
  Forall (fun x => exists y, f x = Ok y) l ->
  exists ys, comprehension f l = Ok ys /\ Forall2 (fun x y => f x = Ok y) l ys.
Proof.
  induction 1 as [|x l [y Hy] _ (ys & Hys & IH)].
  - exists []. split; [reflexivity|constructor].
  - exists (y :: ys). split; [|constructor; assumption].
    cbn [comprehension]. fold (comprehension f). rewrite Hy, Hys. reflexivity.
Qed.

Lemma ScenarioImageEntity_evaluate_total self s m M session :
  entity_leaf_reads self s m M ->
  exists b, ScenarioImageEntity_evaluate self session = Ok b.
Proof.
  intros Hreads. destruct (image_prediction session) as [snapshot|] eqn:Hsnap.
  - rewrite (ScenarioImageEntity_evaluate_table _ _ _ _ _ _ Hreads Hsnap). eauto.
  - unfold ScenarioImageEntity_evaluate. rewrite Hsnap. eauto.
Qed.

Lemma ScenarioImageProperty_evaluate_total self s session :
  get_attribute_value (sip_attributes self) "score" = VFloat s ->
  exists b, ScenarioImageProperty_evaluate self session = Ok b.
Proof.
  intros Hs. unfold ScenarioImageProperty_evaluate.
  destruct (image_prediction session); [|eauto].
  rewrite Hs, property_loop_float. eauto.
Qed.

(** Evaluating a constructed expression returns a boolean. *)
Lemma evaluate_constructed e :
  constructed e -> forall session, exists b, evaluate e session = Ok b.
Proof.
  induction e as [leaf|operator expressions IH] using Expression_induction;
    intros Hc session.
  - inversion Hc as [? ? ? l Hinit|? ? ? l Hinit|? ? ? ? Hinit]; subst.
    + apply ScenarioImageEntity_init_Ok in Hinit as (_ & _ & _ & s & m & M & Hr & _).
      now apply (ScenarioImageEntity_evaluate_total _ s m M).
    + apply ScenarioImageProperty_init_Ok in Hinit as (_ & s & Hs).
      now apply (ScenarioImageProperty_evaluate_total _ s).
    + apply BooleanExpression_init_Ok in Hinit as [[=] _].
  - apply constructed_boolean_inv in Hc as [Hall Hlen].
    assert (Forall (fun e => exists b, evaluate e session = Ok b) expressions) as Hev.
    { rewrite Forall_forall in *. intros e He. apply IH; auto. }
    rewrite evaluate_boolean.
    destruct (comprehension_Ok _ _ Hev) as (bs & -> & _).
    destruct operator; step; eauto.
    destruct expressions as [|e l]; [discriminate|].
    apply Forall_cons in Hev as [[b ->] _]. step. eauto.
Qed.

(** ** The decision table of an entity leaf *)

(** C1: for an entity leaf that reads score [s], [min = m], [max = M] and a
    session with a snapshot, with [count] the number of object-detection
    results whose entity equals the leaf's and whose score is at least [s]:
    [evaluate] returns false when [count = 0], and otherwise true exactly
    when [m = 0] and [M = 0], or [m = 0] and [count <= M], or [M = 0] and
    [count >= m], or [m <= count <= M], the tests being tried in that
    order.  With [m = 2], [M = 5] the counts 1, 3, 5, 6 give false, true,
    true, false; with [m = 1], [M = 0] a count of 100 gives true. *)
Theorem ScenarioImageEntity_evaluate_decision self s m M session snapshot :
  entity_leaf_reads self s m M ->
  image_prediction session = Some snapshot ->
  let count := qualifying_count (sie_image_entity self) s
                 (image_object_predictions snapshot) in
  (count = 0 -> ScenarioImageEntity_evaluate self session = Ok false)
  /\ (count <> 0 ->
      exists b, ScenarioImageEntity_evaluate self session = Ok b
                /\ (b = true <-> (m = 0 /\ M = 0) \/ (m = 0 /\ count <= M)
                                 \/ (M = 0 /\ count >= m) \/ (m <= count <= M)))
  /\ ScenarioImageEntity_evaluate self session
     = Ok (if count =? 0 then false
           else if (m =? 0) && (M =? 0) then true
           else if (m =? 0) && (count <=? M) then true
           else if (M =? 0) && (count >=? m) then true
           else if (m <=? count) && (count <=? M) then true
           else false)
  /\ (m = 2 -> M = 5 ->
      (count = 1 -> ScenarioImageEntity_evaluate self session = Ok false)
      /\ (count = 3 -> ScenarioImageEntity_evaluate self session = Ok true)
      /\ (count = 5 -> ScenarioImageEntity_evaluate self session = Ok true)
      /\ (count = 6 -> ScenarioImageEntity_evaluate self session = Ok false))
  /\ (m = 1 -> M = 0 -> count = 100 ->
      ScenarioImageEntity_evaluate self session = Ok true).
Proof.
  intros Hreads Hsnap count.
  pose proof (ScenarioImageEntity_evaluate_table _ _ _ _ _ _ Hreads Hsnap) as Htable.
  fold count in Htable. rewrite Htable. clear Htable.
  split; [|split; [|split; [|split]]].
  - intros ->. reflexivity.
  - intros Hc. eexists. split; [reflexivity|].
    apply Z.eqb_neq in Hc. rewrite Hc.
    rewrite !orb_true_iff, !andb_true_iff, !Z.eqb_eq, !Z.leb_le, Z.geb_le. lia.
  - f_equal. destruct (count =? 0); [reflexivity|].
    destruct ((m =? 0) && (M =? 0)); [reflexivity|].
    destruct ((m =? 0) && (count <=? M)); [reflexivity|].
    destruct ((M =? 0) && (count >=? m)); [reflexivity|].
    destruct ((m <=? count) && (count <=? M)); reflexivity.
  - intros -> ->. repeat split; intros ->; reflexivity.
  - intros -> -> ->. reflexivity.
Qed.

Lemma ScenarioImageEntity_evaluate_decision_witness :
  entity_leaf_reads leaf_2_5 0.5 2 5
  /\ ScenarioImageEntity_evaluate leaf_2_5 (cats 1) = Ok false
  /\ ScenarioImageEntity_evaluate leaf_2_5 (cats 3) = Ok true
  /\ ScenarioImageEntity_evaluate leaf_2_5 (cats 5) = Ok true
  /\ ScenarioImageEntity_evaluate leaf_2_5 (cats 6) = Ok false.
Proof.
  assert (entity_leaf_reads leaf_2_5 0.5 2 5) as Hr by (repeat split).
  split; [exact Hr|].
  split; [|split; [|split]].
  - destruct (ScenarioImageEntity_evaluate_decision leaf_2_5 0.5 2 5 (cats 1) _ Hr eq_refl)
      as (_ & _ & _ & H & _).
    destruct (H eq_refl eq_refl) as (H1 & _). apply H1. vm_compute. reflexivity.
  - destruct (ScenarioImageEntity_evaluate_decision leaf_2_5 0.5 2 5 (cats 3) _ Hr eq_refl)
      as (_ & _ & _ & H & _).
    destruct (H eq_refl eq_refl) as (_ & H3 & _). apply H3. vm_compute. reflexivity.
  - destruct (ScenarioImageEntity_evaluate_decision leaf_2_5 0.5 2 5 (cats 5) _ Hr eq_refl)
      as (_ & _ & _ & H & _).
    destruct (H eq_refl eq_refl) as (_ & _ & H5 & _). apply H5. vm_compute. reflexivity.
  - destruct (ScenarioImageEntity_evaluate_decision leaf_2_5 0.5 2 5 (cats 6) _ Hr eq_refl)
      as (_ & _ & _ & H & _).
    destruct (H eq_refl eq_refl) as (_ & _ & _ & H6). apply H6. vm_compute. reflexivity.
Defined.

(** ** The bounds [min = 0], [max = 0] *)

Lemma effective_value name attributes d :
  (if name_in name (to_attribute <$> attributes)
   then get_attribute_value (to_attribute <$> attributes) name else d)
  = default d (items_get attributes name).
Proof.
  rewrite name_in_items, get_attribute_value_items.
  destruct (items_get attributes name); [|reflexivity].
  now rewrite bool_decide_eq_true_2 by eauto.
Qed.

(** The range rules of the constructor, read on its argument: the minimum
    in force is below 1, or exceeds a maximum other than 0. *)
Lemma ScenarioImageEntity_init_range name image_entity attributes m M :
  default (VInt 1) (items_get attributes "min") = VInt m ->
  default (VInt 0) (items_get attributes "max") = VInt M ->
  m < 1 \/ (m > M /\ M <> 0) ->
  ScenarioImageEntity_init name image_entity attributes = Raise ValueError.
Proof.
  intros Hm HM Hbad.
  destruct (ScenarioImageEntity_init name image_entity attributes) as [self|e] eqn:E.
  - exfalso.
    apply ScenarioImageEntity_init_Ok in E as (_ & _ & _ & s & m' & M' & _ & Em & EM & H1 & H2).
    rewrite effective_value in Em, EM.
    assert (m' = m) as -> by congruence. assert (M' = M) as -> by congruence. lia.
  - f_equal. now apply ScenarioImageEntity_init_Raise in E.
Qed.

(** C2, as stated, fails: a leaf with [min = 0] and [max = 0] cannot be
    constructed, so constructing it and evaluating it on a session with
    exactly one qualifying detection raises instead of returning true. *)
Lemma min0_max0_leaf_is_rejected :
  qualifying_count cat 0.5 (image_object_predictions (cats_snapshot 1)) = 1
  /\ (leaf ← ScenarioImageEntity_init "any cat" cat
               [("score", VFloat 0.5); ("min", VInt 0); ("max", VInt 0)];
      ScenarioImageEntity_evaluate leaf (cats 1)) = Raise ValueError
  /\ (leaf ← ScenarioImageEntity_init "any cat" cat
               [("score", VFloat 0.5); ("min", VInt 0); ("max", VInt 0)];
      ScenarioImageEntity_evaluate leaf (cats 1)) <> Ok true.
Proof. split; [|split]; [vm_compute; reflexivity..|vm_compute; discriminate]. Qed.

(** C2, amended: the constructor raises [ValueError] whenever [min] is
    given as 0, so no leaf with [min = 0], [max = 0] is ever constructed;
    the decision table of [evaluate], on a leaf whose stored attributes read
    [min = 0] and [max = 0], returns true with exactly one qualifying
    detection (and with any positive count) and false with none. *)
Theorem ScenarioImageEntity_presence_only :
  (forall name image_entity attributes,
      items_get attributes "min" = Some (VInt 0) ->
      ScenarioImageEntity_init name image_entity attributes = Raise ValueError)
  /\ (forall self s session snapshot,
        entity_leaf_reads self s 0 0 ->
        image_prediction session = Some snapshot ->
        let count := qualifying_count (sie_image_entity self) s
                       (image_object_predictions snapshot) in
        (count = 1 -> ScenarioImageEntity_evaluate self session = Ok true)
        /\ (0 < count -> ScenarioImageEntity_evaluate self session = Ok true)
        /\ (count = 0 -> ScenarioImageEntity_evaluate self session = Ok false)).
Proof.
  split.
  - intros name image_entity attributes Hmin.
    destruct (ScenarioImageEntity_init name image_entity attributes) as [self|e] eqn:E.
    + exfalso.
      apply ScenarioImageEntity_init_Ok in E as (_ & _ & _ & s & m & M & _ & Em & _ & H1 & _).
      rewrite effective_value, Hmin in Em. simpl in Em. injection Em as <-. lia.
    + f_equal. now apply ScenarioImageEntity_init_Raise in E.
  - intros self s session snapshot Hreads Hsnap count.
    pose proof (ScenarioImageEntity_evaluate_table _ _ _ _ _ _ Hreads Hsnap) as Htable.
    fold count in Htable. rewrite Htable.
    repeat split.
    + intros ->. reflexivity.
    + intros Hpos. destruct (Z.eqb_spec count 0); [lia|reflexivity].
    + intros ->. reflexivity.
Qed.

Lemma ScenarioImageEntity_presence_only_witness :
  ScenarioImageEntity_init "any cat" cat
    [("score", VFloat 0.5); ("min", VInt 0); ("max", VInt 0)] = Raise ValueError
  /\ ScenarioImageEntity_evaluate leaf_0_0 (cats 1) = Ok true
  /\ ScenarioImageEntity_evaluate leaf_0_0 (cats 0) = Ok false.
Proof.
  destruct ScenarioImageEntity_presence_only as [Hinit Hevaluate].
  split; [apply Hinit; reflexivity|].
  assert (entity_leaf_reads leaf_0_0 0.5 0 0) as Hr by (repeat split).
  split.
  - destruct (Hevaluate leaf_0_0 0.5%float (cats 1) _ Hr eq_refl) as (H1 & _).
    apply H1. vm_compute. reflexivity.
  - destruct (Hevaluate leaf_0_0 0.5%float (cats 0) _ Hr eq_refl) as (_ & _ & H0).
    apply H0. vm_compute. reflexivity.
Defined.

(** ** Absent perception data *)

(** C5: on a session without a perception snapshot, every entity leaf and
    every property leaf evaluates to false, without raising. *)
Theorem leaf_without_snapshot_is_false session :
  image_prediction session = None ->
  (forall leaf : ScenarioImageEntity, ScenarioImageEntity_evaluate leaf session = Ok false)
  /\ (forall leaf : ScenarioImageProperty, ScenarioImageProperty_evaluate leaf session = Ok false)
  /\ (forall leaf : ScenarioRequirement, ScenarioRequirement_evaluate leaf session = Ok false).
Proof.
  intros Hnone.
  assert (forall leaf, ScenarioImageEntity_evaluate leaf session = Ok false) as He.
  { intros leaf. unfold ScenarioImageEntity_evaluate. now rewrite Hnone. }
  assert (forall leaf, ScenarioImageProperty_evaluate leaf session = Ok false) as Hp.
  { intros leaf. unfold ScenarioImageProperty_evaluate. now rewrite Hnone. }
  repeat split; [exact He|exact Hp|].
  intros [leaf|leaf]; [apply He|apply Hp].
Qed.

Lemma leaf_without_snapshot_is_false_witness :
  ScenarioImageEntity_evaluate leaf_2_5 no_snapshot = Ok false
  /\ ScenarioImageProperty_evaluate leaf_sunny no_snapshot = Ok false.
Proof.
  destruct (leaf_without_snapshot_is_false no_snapshot eq_refl) as (He & Hp & _).
  split; [apply He|apply Hp].
Defined.

(** ** The threshold of a property leaf *)

(** C6: a property leaf whose score threshold is 0.7 evaluates, on a
    session with a snapshot, to true exactly when some property-detection
    result of the snapshot has the leaf's property and a score of at least
    0.7; on a session without a snapshot it evaluates to false. *)
Theorem ScenarioImageProperty_evaluate_threshold self session :
  get_attribute_value (sip_attributes self) "score" = VFloat 0.7 ->
  match image_prediction session with
  | Some snapshot =>
      exists b, ScenarioImageProperty_evaluate self session = Ok b
                /\ (b = true <->
                    exists p, p ∈ image_property_predictions snapshot
                              /\ ImageRequirement_eq (ipp_image_property p)
                                   (ObjImage (sip_image_property self)) = true
                              /\ float_ge (ipp_score p) 0.7 = true)
  | None => ScenarioImageProperty_evaluate self session = Ok false
  end.
Proof.
  intros Hs. unfold ScenarioImageProperty_evaluate.
  destruct (image_prediction session) as [snapshot|]; [|reflexivity].
  rewrite Hs, property_loop_float. eexists. split; [reflexivity|].
  rewrite existsb_exists. unfold property_match.
  split; intros (p & Hin & Hp); exists p.
  - apply andb_true_iff in Hp. rewrite list_elem_of_In. tauto.
  - rewrite <- list_elem_of_In, andb_true_iff. tauto.
Qed.

Lemma ScenarioImageProperty_evaluate_threshold_witness :
  ScenarioImageProperty_init "sunny day" sunny [("score", VFloat 0.7)] = Ok leaf_sunny
  /\ (exists b, ScenarioImageProperty_evaluate leaf_sunny (cats 1) = Ok b
                /\ (b = true <->
                    exists p, p ∈ image_property_predictions (cats_snapshot 1)
                              /\ ImageRequirement_eq (ipp_image_property p)
                                   (ObjImage (sip_image_property leaf_sunny)) = true
                              /\ float_ge (ipp_score p) 0.7 = true))
  /\ ScenarioImageProperty_evaluate leaf_sunny no_snapshot = Ok false.
Proof.
  split; [reflexivity|]. split.
  - exact (ScenarioImageProperty_evaluate_threshold leaf_sunny (cats 1) eq_refl).
  - exact (ScenarioImageProperty_evaluate_threshold leaf_sunny no_snapshot eq_refl).
Defined.

(** ** Composite expressions *)

Lemma comprehension_Forall2 {A B} (f : A -> result B) l ys :
  comprehension f l = Ok ys -> Forall2 (fun x y => f x = Ok y) l ys.
Proof.
  revert ys. induction l as [|x l IH]; intros ys.
  - intros [= <-]. constructor.
  - cbn [comprehension]. fold (comprehension f).
    destruct (f x) as [y|] eqn:Hy; [|discriminate]. step.
    destruct (comprehension f l) as [ys'|]; [|discriminate]. step.
    intros [= <-]. constructor; auto.
Qed.

Lemma py_all_Forall2 {A} (f : A -> result bool) l bs :
  Forall2 (fun x b => f x = Ok b) l bs ->
  py_all bs = true <-> forall x, x ∈ l -> f x = Ok true.
Proof.
  unfold py_all. induction 1 as [|x b l bs Hx _ IH]; cbn [forallb].
  - split; [intros _ x []%elem_of_nil|reflexivity].
  - rewrite andb_true_iff, IH. unfold id. split.
    + intros [-> Hl] y [->|Hy]%elem_of_cons; auto.
    + intros Hall. split.
      * assert (f x = Ok true) as Hx' by (apply Hall, elem_of_cons; auto). congruence.
      * intros y Hy. apply Hall, elem_of_cons. auto.
Qed.

Lemma py_any_Forall2 {A} (f : A -> result bool) l bs :
  Forall2 (fun x b => f x = Ok b) l bs ->
  py_any bs = true <-> exists x, x ∈ l /\ f x = Ok true.
Proof.
  unfold py_any. induction 1 as [|x b l bs Hx _ IH]; cbn [existsb].
  - split; [discriminate|intros (x & []%elem_of_nil & _)].
  - rewrite orb_true_iff, IH. unfold id. split.
    + intros [->|(y & Hy & Hfy)].
      * exists x. split; [apply elem_of_cons; auto|assumption].
      * exists y. split; [apply elem_of_cons; auto|assumption].
    + intros (y & [->|Hy]%elem_of_cons & Hfy).
      * left. congruence.
      * right. eauto.
Qed.

(** C7: on every session, an AND node evaluates to true exactly when every
    child evaluates to true, an OR node exactly when some child evaluates
    to true, and a NOT node to the negation of the value of its single
    child. *)
Theorem BooleanExpression_evaluate_semantics operator expressions session :
  constructed (BooleanExpression operator expressions) ->
  exists b,
    evaluate (BooleanExpression operator expressions) session = Ok b
    /\ match operator with
       | AND => b = true <-> forall e, e ∈ expressions -> evaluate e session = Ok true
       | OR => b = true <-> exists e, e ∈ expressions /\ evaluate e session = Ok true
       | NOT => exists e c, expressions = [e] /\ evaluate e session = Ok c /\ b = negb c
       end.
Proof.
  intros Hc. apply constructed_boolean_inv in Hc as [Hall Hlen].
  assert (Forall (fun e => exists b, evaluate e session = Ok b) expressions) as Hev.
  { eapply Forall_impl; [exact Hall|]. intros e He. now apply evaluate_constructed. }
  rewrite evaluate_boolean.
  destruct (comprehension_Ok _ _ Hev) as (bs & Hbs & H2).
  destruct operator.
  - rewrite Hbs. eexists. split; [reflexivity|]. now apply py_all_Forall2.
  - rewrite Hbs. eexists. split; [reflexivity|]. now apply py_any_Forall2.
  - destruct expressions as [|e [|e' l]]; try discriminate.
    apply Forall_cons in Hev as [[c Hc] _]. rewrite Hc.
    eexists. split; [reflexivity|]. exists e, c. auto.
Qed.

Lemma leaf_2_5_constructed : constructed (Requirement (RequireImageEntity leaf_2_5)).
Proof.
  apply (constructed_entity "some cats" cat
           [("score", VFloat 0.5); ("min", VInt 2); ("max", VInt 5)]).
  reflexivity.
Defined.

Lemma leaf_sunny_constructed : constructed (Requirement (RequireImageProperty leaf_sunny)).
Proof.
  apply (constructed_property "sunny day" sunny [("score", VFloat 0.7)]).
  reflexivity.
Defined.

Lemma BooleanExpression_evaluate_semantics_witness :
  (exists b,
      evaluate (BooleanExpression AND
                  [Requirement (RequireImageEntity leaf_2_5);
                   Requirement (RequireImageProperty leaf_sunny)]) (cats 3) = Ok b
      /\ (b = true <->
          forall e, e ∈ [Requirement (RequireImageEntity leaf_2_5);
                         Requirement (RequireImageProperty leaf_sunny)] ->
                    evaluate e (cats 3) = Ok true))
  /\ (exists b,
        evaluate (BooleanExpression NOT [Requirement (RequireImageEntity leaf_2_5)])
                 (cats 3) = Ok b
        /\ exists e c, [Requirement (RequireImageEntity leaf_2_5)] = [e]
                       /\ evaluate e (cats 3) = Ok c /\ b = negb c).
Proof.
  split.
  - apply (BooleanExpression_evaluate_semantics AND).
    apply (constructed_boolean AND [Requirement (RequireImageEntity leaf_2_5);
                                    Requirement (RequireImageProperty leaf_sunny)]);
      [|reflexivity].
    apply Forall_cons. split; [exact leaf_2_5_constructed|].
    apply Forall_cons. split; [exact leaf_sunny_constructed|apply Forall_nil_2].
  - apply (BooleanExpression_evaluate_semantics NOT).
    apply (constructed_boolean NOT [Requirement (RequireImageEntity leaf_2_5)]);
      [|reflexivity].
    apply Forall_cons. split; [exact leaf_2_5_constructed|apply Forall_nil_2].
Defined.

(** ** Identity of perception entities *)

(** C8: equality and hash of perception entities depend on the name only:
    two values of the same class with equal names are equal and have equal
    hashes whatever their attributes, and a value of another class or of
    another kind is never equal. *)
Theorem ImageRequirement_identity (hash_str : string -> Z) :
  (forall self other,
      ImageRequirement_eq self (ObjImage other) = true <->
      req_class self = req_class other /\ req_name self = req_name other)
  /\ (forall self other,
        req_class self = req_class other -> req_name self = req_name other ->
        ImageRequirement_eq self (ObjImage other) = true
        /\ ImageRequirement_hash hash_str self = ImageRequirement_hash hash_str other)
  /\ (forall self other,
        req_class self <> req_class other ->
        ImageRequirement_eq self (ObjImage other) = false)
  /\ (forall self v, ImageRequirement_eq self (ObjValue v) = false).
Proof.
  assert (forall self other,
             ImageRequirement_eq self (ObjImage other) = true <->
             req_class self = req_class other /\ req_name self = req_name other) as Heq.
  { intros self other. unfold ImageRequirement_eq.
    case_bool_decide as Hclass.
    - rewrite String.eqb_eq. split; [intros ->|intros [_ ->]]; auto.
    - split; [discriminate|]. intros [Hsame _]. congruence. }
  split; [exact Heq|]. split; [|split].
  - intros self other Hclass Hname. split; [now apply Heq|].
    unfold ImageRequirement_hash. now rewrite Hname.
  - intros self other Hclass. apply not_true_is_false. rewrite Heq. tauto.
  - reflexivity.
Qed.

Lemma ImageRequirement_identity_witness :
  (ImageRequirement_eq cat
     (ObjImage (mkImageRequirement ImageEntity "cat"
                  [mkAttribute "description" (VStr "a small feline")])) = true
   /\ ImageRequirement_hash (fun s => Z.of_nat (String.length s)) cat
      = ImageRequirement_hash (fun s => Z.of_nat (String.length s))
          (mkImageRequirement ImageEntity "cat"
             [mkAttribute "description" (VStr "a small feline")]))
  /\ ImageRequirement_eq cat (ObjImage (mkImageRequirement ImageProperty "cat" [])) = false.
Proof.
  destruct (ImageRequirement_identity (fun s => Z.of_nat (String.length s)))
    as (_ & Hsame & Hother & _).
  split.
  - apply Hsame; reflexivity.
  - apply Hother. discriminate.
Defined.

(** ** The invariant of a constructed entity leaf *)

Lemma occurrences_absent name attrs :
  name ∉ attr_name <$> attrs -> occurrences name attrs = 0%nat.
Proof.
  unfold occurrences. induction attrs as [|a l IH]; [reflexivity|].
  cbn [fmap list_fmap List.filter]. rewrite not_elem_of_cons. intros [Hne Hl].
  destruct (String.eqb_spec (attr_name a) name) as [Heq|_]; [congruence|auto].
Qed.

Lemma occurrences_once name attrs :
  NoDup (attr_name <$> attrs) -> name ∈ attr_name <$> attrs ->
  occurrences name attrs = 1%nat.
Proof.
  unfold occurrences. induction attrs as [|a l IH].
  - intros _ []%elem_of_nil.
  - cbn [fmap list_fmap List.filter]. rewrite NoDup_cons, elem_of_cons.
    intros [Hfresh Hnd] Hin.
    destruct (String.eqb_spec (attr_name a) name) as [Heq|Hne].
    + cbn [length]. f_equal. apply occurrences_absent. now rewrite <- Heq.
    + destruct Hin as [->|Hin]; [contradiction|auto].
Qed.

Lemma names_of_items attributes :
  attr_name <$> (to_attribute <$> attributes) = attributes.*1.
Proof. induction attributes as [|[k v] l IH]; [reflexivity|]. simpl. now f_equal. Qed.

Lemma name_in_with_defaults name attrs :
  name_in name (with_defaults attrs)
  = name_in name attrs || String.eqb "min" name || String.eqb "max" name.
Proof.
  assert (forall l n0, name_in n0 l = true ->
            name_in name l = name_in name l || String.eqb n0 name) as Habsorb.
  { intros l n0 Hl. destruct (String.eqb_spec n0 name) as [<-|_].
    - now rewrite Hl.
    - now rewrite orb_false_r. }
  unfold with_defaults.
  destruct (name_in "min" attrs) eqn:Hmin.
  - rewrite <- (Habsorb attrs "min" Hmin).
    destruct (name_in "max" attrs) eqn:Hmax.
    + now apply Habsorb.
    + now rewrite name_in_app.
  - assert (name_in "max" (attrs ++ [mkAttribute "min" (VInt 1)]) = name_in "max" attrs) as ->.
    { rewrite name_in_app. now rewrite orb_false_r. }
    destruct (name_in "max" attrs) eqn:Hmax.
    + rewrite name_in_app. cbn [attr_name].
      destruct (String.eqb_spec "max" name) as [<-|_].
      * now rewrite Hmax.
      * now rewrite orb_false_r.
    + now rewrite !name_in_app.
Qed.

Lemma NoDup_with_defaults attrs :
  NoDup (attr_name <$> attrs) -> NoDup (attr_name <$> with_defaults attrs).
Proof.
  assert (forall l a, NoDup (attr_name <$> l) -> name_in (attr_name a) l = false ->
                      NoDup (attr_name <$> l ++ [a])) as Hsnoc.
  { intros l a Hl Ha. rewrite fmap_app. apply NoDup_app. split; [exact Hl|]. split.
    - intros x Hx [->|[]%elem_of_nil]%elem_of_cons.
      apply name_in_spec in Hx. congruence.
    - apply NoDup_singleton. }
  intros Hnd. unfold with_defaults.
  destruct (name_in "min" attrs) eqn:Hmin.
  - destruct (name_in "max" attrs) eqn:Hmax; [exact Hnd|now apply Hsnoc].
  - destruct (name_in "max" (attrs ++ _)) eqn:Hmax; [now apply Hsnoc|].
    apply Hsnoc; [now apply Hsnoc|exact Hmax].
Qed.

(** C9: when the constructor of an entity leaf succeeds, the stored values
    satisfy [min >= 1] and [max = 0] or [min <= max], and each of the names
    score, min, max occurs exactly once among the attributes; hence the
    test [min == 0] that guards the first two branches of [evaluate] is
    false, and on a session with a snapshot and [c] qualifying detections
    [evaluate] returns [c > 0] and (if [max = 0] then [c >= min] else
    [min <= c <= max]). *)
Theorem ScenarioImageEntity_init_invariant name image_entity attributes self :
  is_dict attributes ->
  ScenarioImageEntity_init name image_entity attributes = Ok self ->
  exists s m M,
    entity_leaf_reads self s m M
    /\ m >= 1 /\ (M = 0 \/ m <= M)
    /\ occurrences "score" (sie_attributes self) = 1%nat
    /\ occurrences "min" (sie_attributes self) = 1%nat
    /\ occurrences "max" (sie_attributes self) = 1%nat
    /\ py_eq (get_attribute_value (sie_attributes self) "min") (VInt 0) = false
    /\ forall session snapshot,
         image_prediction session = Some snapshot ->
         let c := qualifying_count (sie_image_entity self) s
                    (image_object_predictions snapshot) in
         ScenarioImageEntity_evaluate self session
         = Ok ((c >? 0) && (if M =? 0 then c >=? m else (m <=? c) && (c <=? M))).
Proof.
  intros Hdict Hinit.
  destruct (ScenarioImageEntity_init_Ok _ _ _ _ Hinit)
    as (Hself & Hchecked & Hscore & s & m & M & Hreads & _ & _ & Hm & HM).
  exists s, m, M.
  assert (NoDup (attr_name <$> sie_attributes self)) as Hnd.
  { rewrite Hself. cbn [sie_attributes]. apply NoDup_with_defaults.
    now rewrite names_of_items. }
  assert (forall n, name_in n (to_attribute <$> attributes)
                    || String.eqb "min" n || String.eqb "max" n = true ->
                    occurrences n (sie_attributes self) = 1%nat) as Honce.
  { intros n Hn. apply occurrences_once; [exact Hnd|].
    apply name_in_spec. rewrite Hself. cbn [sie_attributes].
    now rewrite name_in_with_defaults. }
  split; [exact Hreads|]. split; [lia|]. split; [exact HM|].
  split; [apply Honce; now rewrite Hscore|].
  split; [apply Honce; now rewrite orb_true_r|].
  split; [apply Honce; now rewrite orb_true_r|].
  split.
  - destruct Hreads as (_ & -> & _). rewrite py_eq_int. apply Z.eqb_neq. lia.
  - intros session snapshot Hsnap c.
    pose proof (ScenarioImageEntity_evaluate_table _ _ _ _ _ _ Hreads Hsnap) as Htable.
    fold c in Htable. rewrite Htable. f_equal.
    pose proof (qualifying_count_nonneg (sie_image_entity self) s
                  (image_object_predictions snapshot)) as Hc. fold c in Hc.
    assert ((m =? 0) = false) as -> by (apply Z.eqb_neq; lia).
    cbn [andb orb].
    destruct (Z.eqb_spec c 0) as [->|Hc0]; [reflexivity|].
    assert ((c >? 0) = true) as -> by (apply Z.gtb_lt; lia).
    cbn [andb].
    destruct (Z.eqb_spec M 0) as [->|HM0].
    + cbn [andb]. destruct (c >=? m) eqn:Hge; [reflexivity|].
      cbn [orb]. apply andb_false_iff. right. apply Z.leb_gt. lia.
    + reflexivity.
Qed.

Lemma ScenarioImageEntity_init_invariant_witness :
  exists s m M,
    entity_leaf_reads leaf_2_5 s m M
    /\ m >= 1 /\ (M = 0 \/ m <= M)
    /\ occurrences "score" (sie_attributes leaf_2_5) = 1%nat
    /\ occurrences "min" (sie_attributes leaf_2_5) = 1%nat
    /\ occurrences "max" (sie_attributes leaf_2_5) = 1%nat
    /\ py_eq (get_attribute_value (sie_attributes leaf_2_5) "min") (VInt 0) = false
    /\ forall session snapshot,
         image_prediction session = Some snapshot ->
         let c := qualifying_count (sie_image_entity leaf_2_5) s
                    (image_object_predictions snapshot) in
         ScenarioImageEntity_evaluate leaf_2_5 session
         = Ok ((c >? 0) && (if M =? 0 then c >=? m else (m <=? c) && (c <=? M))).
Proof.
  apply (ScenarioImageEntity_init_invariant "some cats" cat
           [("score", VFloat 0.5); ("min", VInt 2); ("max", VInt 5)]).
  - unfold is_dict. cbn [fmap list_fmap fst].
    repeat (apply NoDup_cons_2; [rewrite ?elem_of_cons, elem_of_nil;
                                 intros H; intuition discriminate|]).
    apply NoDup_nil_2.
  - reflexivity.
Defined.

(** ** Validation happens in the constructors *)

Lemma ScenarioImageEntity_init_rejects name image_entity attributes n v :
  (n, v) ∈ attributes ->
  ScenarioImageEntityAttribute_init n v = Raise ValueError ->
  ScenarioImageEntity_init name image_entity attributes = Raise ValueError.
Proof.
  intros Hin Hbad. rewrite ScenarioImageEntity_init_unfold.
  unfold ScenarioImageEntityAttribute_init in *.
  pose proof (comprehension_checked_rejects _ _ _ _ Hin Hbad) as Hbuild.
  unfold build in Hbuild. now rewrite Hbuild.
Qed.

Lemma ScenarioImageProperty_init_rejects name image_property attributes n v :
  (n, v) ∈ attributes ->
  ScenarioImagePropertyAttribute_init n v = Raise ValueError ->
  ScenarioImageProperty_init name image_property attributes = Raise ValueError.
Proof.
  intros Hin Hbad. unfold ScenarioImageProperty_init.
  unfold ScenarioImagePropertyAttribute_init in *.
  pose proof (comprehension_checked_rejects _ _ _ _ Hin Hbad) as Hbuild.
  unfold build in Hbuild. now rewrite Hbuild.
Qed.

Lemma ScenarioImageEntity_init_no_score name image_entity attributes :
  items_get attributes "score" = None ->
  ScenarioImageEntity_init name image_entity attributes = Raise ValueError.
Proof.
  intros Hnone.
  destruct (ScenarioImageEntity_init name image_entity attributes) as [self|e] eqn:E.
  - apply ScenarioImageEntity_init_Ok in E as (_ & _ & Hs & _).
    rewrite name_in_items, Hnone in Hs.
    rewrite bool_decide_eq_false_2 in Hs; [discriminate|]. intros [? ?]; discriminate.
  - f_equal. now apply ScenarioImageEntity_init_Raise in E.
Qed.

Lemma ScenarioImageProperty_init_no_score name image_property attributes :
  items_get attributes "score" = None ->
  ScenarioImageProperty_init name image_property attributes = Raise ValueError.
Proof.
  intros Hnone.
  destruct (ScenarioImageProperty_init name image_property attributes) as [self|e] eqn:E.
  - apply ScenarioImageProperty_init_Ok in E as (-> & s & Hs).
    cbn [sip_attributes] in Hs. rewrite get_attribute_value_items, Hnone in Hs.
    discriminate.
  - f_equal. now apply ScenarioImageProperty_init_Raise in E.
Qed.

Lemma BooleanExpression_init_arity operator expressions :
  (operator <> NOT /\ (length expressions < 2)%nat)
  \/ (operator = NOT /\ length expressions <> 1%nat) ->
  BooleanExpression_init operator expressions = Raise ValueError.
Proof.
  unfold BooleanExpression_init.
  intros [[Hop Hlen]|[-> Hlen]].
  - destruct operator; [| |contradiction]; now rewrite bool_decide_eq_true_2.
  - cbn [andb]. now rewrite bool_decide_eq_true_2.
Qed.

Lemma checked_attribute_inadmissible dictionary name value :
  inadmissible dictionary name value ->
  checked_attribute dictionary name value = Raise ValueError.
Proof.
  intros [Hnone|(t & Ht & Hne)].
  - now apply checked_attribute_unknown.
  - now apply (checked_attribute_mismatch _ _ _ t).
Qed.

(** C3: validation fails in the constructors and not during evaluation.
    A boolean expression with AND or OR and fewer than two children, or
    with NOT and a number of children other than one, is rejected; a leaf
    with an attribute whose name is not in the dictionary of its class, or
    whose value has not the type declared for the name, or without the
    attribute score, is rejected; an entity leaf with [min < 1], or with
    [min > max] while [max] is not 0, is rejected; and evaluating an
    expression that the constructors returned never raises. *)
Theorem validation_at_construction :
  (forall operator expressions,
      (operator <> NOT /\ (length expressions < 2)%nat)
      \/ (operator = NOT /\ length expressions <> 1%nat) ->
      BooleanExpression_init operator expressions = Raise ValueError)
  /\ (forall name image_entity attributes n v,
        (n, v) ∈ attributes ->
        inadmissible ScenarioImageEntityAttribute_dictionary n v ->
        ScenarioImageEntityAttribute_init n v = Raise ValueError
        /\ ScenarioImageEntity_init name image_entity attributes = Raise ValueError)
  /\ (forall name image_property attributes n v,
        (n, v) ∈ attributes ->
        inadmissible ScenarioImagePropertyAttribute_dictionary n v ->
        ScenarioImagePropertyAttribute_init n v = Raise ValueError
        /\ ScenarioImageProperty_init name image_property attributes = Raise ValueError)
  /\ (forall name image attributes,
        items_get attributes "score" = None ->
        ScenarioImageEntity_init name image attributes = Raise ValueError
        /\ ScenarioImageProperty_init name image attributes = Raise ValueError)
  /\ (forall name image_entity attributes m M,
        default (VInt 1) (items_get attributes "min") = VInt m ->
        default (VInt 0) (items_get attributes "max") = VInt M ->
        m < 1 \/ (m > M /\ M <> 0) ->
        ScenarioImageEntity_init name image_entity attributes = Raise ValueError)
  /\ (forall e session, constructed e -> exists b, evaluate e session = Ok b).
Proof.
  split; [exact BooleanExpression_init_arity|].
  split.
  { intros name image_entity attributes n v Hin Hbad.
    apply checked_attribute_inadmissible in Hbad.
    split; [exact Hbad|]. now apply (ScenarioImageEntity_init_rejects _ _ _ n v). }
  split.
  { intros name image_property attributes n v Hin Hbad.
    apply checked_attribute_inadmissible in Hbad.
    split; [exact Hbad|]. now apply (ScenarioImageProperty_init_rejects _ _ _ n v). }
  split.
  { intros name image attributes Hnone. split.
    - now apply ScenarioImageEntity_init_no_score.
    - now apply ScenarioImageProperty_init_no_score. }
  split; [exact ScenarioImageEntity_init_range|].
  intros e session He. now apply evaluate_constructed.
Qed.

Lemma validation_at_construction_witness :
  BooleanExpression_init AND [Requirement (RequireImageEntity leaf_2_5)] = Raise ValueError
  /\ BooleanExpression_init NOT [] = Raise ValueError
  /\ ScenarioImageEntity_init "x" cat [("score", VFloat 0.5); ("colour", VStr "red")]
     = Raise ValueError
  /\ ScenarioImageEntity_init "x" cat [("score", VInt 1)] = Raise ValueError
  /\ ScenarioImageProperty_init "x" sunny [("score", VFloat 0.7); ("min", VInt 1)]
     = Raise ValueError
  /\ ScenarioImageEntity_init "x" cat [("min", VInt 1)] = Raise ValueError
  /\ ScenarioImageProperty_init "x" sunny [] = Raise ValueError
  /\ ScenarioImageEntity_init "x" cat [("score", VFloat 0.5); ("min", VInt 0)]
     = Raise ValueError
  /\ ScenarioImageEntity_init "x" cat
       [("score", VFloat 0.5); ("min", VInt 3); ("max", VInt 2)] = Raise ValueError
  /\ exists b, evaluate (Requirement (RequireImageEntity leaf_2_5)) (cats 3) = Ok b.
Proof.
  destruct validation_at_construction
    as (Harity & Hentity & Hproperty & Hscore & Hrange & Hevaluate).
  split; [apply Harity; left; split; [discriminate|simpl; lia]|].
  split; [apply Harity; right; split; [reflexivity|discriminate]|].
  split.
  { apply (Hentity "x" cat _ "colour" (VStr "red")).
    - apply elem_of_cons. right. apply elem_of_cons. left. reflexivity.
    - left. reflexivity. }
  split.
  { apply (Hentity "x" cat _ "score" (VInt 1)).
    - apply elem_of_cons. left. reflexivity.
    - right. exists TFloat. split; [reflexivity|discriminate]. }
  split.
  { apply (Hproperty "x" sunny _ "min" (VInt 1)).
    - apply elem_of_cons. right. apply elem_of_cons. left. reflexivity.
    - left. reflexivity. }
  split; [apply (Hscore "x" cat [("min", VInt 1)]); reflexivity|].
  split; [apply (Hscore "x" sunny []); reflexivity|].
  split; [apply (Hrange "x" cat _ 0 0); [reflexivity|reflexivity|lia]|].
  split; [apply (Hrange "x" cat _ 3 2); [reflexivity|reflexivity|lia]|].
  apply Hevaluate. exact leaf_2_5_constructed.
Defined.

(** ** Event predicates and flags *)

(** The predicates that end in [return False] give [False] on a flag that
    is present and false. *)
Lemma file_received_flag_false session event_params :
  Bot.flags session !! "file" = Some false ->
  Bot.file_received session event_params = Ok (VBool false).
Proof. intros H. unfold Bot.file_received, Bot.subscript. now rewrite H. Qed.

Lemma image_object_detected_flag_false session event_params :
  Bot.flags session !! "image_prediction" = Some false ->
  Bot.image_object_detected session event_params = Ok (VBool false).
Proof. intros H. unfold Bot.image_object_detected, Bot.subscript. now rewrite H. Qed.

(** C4, at the failing input: on the idle session [file_received] and
    [image_object_detected] return [False], but [intent_matched] returns
    [None], which is not the boolean [False]. *)
Theorem intent_matched_idle_session_returns_None :
  Bot.intent_matched idle_session greeting_params = Ok VNone
  /\ Bot.intent_matched idle_session greeting_params <> Ok (VBool false)
  /\ Bot.file_received idle_session greeting_params = Ok (VBool false)
  /\ Bot.image_object_detected idle_session greeting_params = Ok (VBool false).
Proof.
  assert (Bot.intent_matched idle_session greeting_params = Ok VNone) as H
    by (vm_compute; reflexivity).
  split; [exact H|]. split; [rewrite H; discriminate|].
  split; [apply file_received_flag_false|apply image_object_detected_flag_false];
    reflexivity.
Qed.

(** C10: on a session whose flags map [predicted_intent] to [False],
    [intent_matched] returns [None], not the boolean [False]. *)
Theorem intent_matched_falls_through session event_params :
  Bot.flags session !! "predicted_intent" = Some false ->
  Bot.intent_matched session event_params = Ok VNone
  /\ Bot.intent_matched session event_params <> Ok (VBool false).
Proof.
  intros H.
  assert (Bot.intent_matched session event_params = Ok VNone) as ->.
  { unfold Bot.intent_matched, Bot.subscript. now rewrite H. }
  split; [reflexivity|discriminate].
Qed.

Lemma intent_matched_falls_through_witness :
  Bot.flags idle_session !! "predicted_intent" = Some false
  /\ Bot.intent_matched idle_session greeting_params = Ok VNone
  /\ Bot.intent_matched idle_session greeting_params <> Ok (VBool false).
Proof.
  split; [reflexivity|].
  apply (intent_matched_falls_through idle_session greeting_params). reflexivity.
Defined.

(** * Further properties *)

(** ** Construction and lookup of perception entities *)

Lemma description_dictionary_lookup name t :
  ImageEntityAttribute_dictionary !! name = Some t <-> name = "description" /\ t = TStr.
Proof.
  unfold ImageEntityAttribute_dictionary. rewrite lookup_singleton_Some.
  split; intros [<- <-]; auto.
Qed.

Lemma checked_attribute_accepts dictionary name value :
  dictionary !! name = Some (type_of value) ->
  checked_attribute dictionary name value = Ok (mkAttribute name value).
Proof.
  intros H. unfold checked_attribute. rewrite H.
  now rewrite bool_decide_eq_false_2 by auto.
Qed.

Lemma build_Ok dictionary attributes :
  Forall (fun item => dictionary !! item.1 = Some (type_of item.2)) attributes ->
  build dictionary attributes = Ok (to_attribute <$> attributes).
Proof.
  induction 1 as [|[k v] l Hkv _ IH]; [reflexivity|].
  unfold build in *. cbn [comprehension]. fold (@comprehension (string * pyvalue) Attribute).
  simpl in Hkv. rewrite (checked_attribute_accepts _ _ _ Hkv). step. rewrite IH. reflexivity.
Qed.

Lemma build_Ok_inv dictionary attributes attrs :
  build dictionary attributes = Ok attrs ->
  Forall (fun item => dictionary !! item.1 = Some (type_of item.2)) attributes.
Proof.
  intros H. apply comprehension_checked_Ok in H as [-> Hc].
  unfold checked in Hc. rewrite Forall_fmap in Hc.
  eapply Forall_impl; [exact Hc|]. intros [k v] Hkv. exact Hkv.
Qed.

Lemma build_decide dictionary attributes :
  build dictionary attributes = Ok (to_attribute <$> attributes)
  \/ build dictionary attributes = Raise ValueError.
Proof.
  destruct (build dictionary attributes) as [attrs|e] eqn:E.
  - left. now apply comprehension_checked_Ok in E as [-> _].
  - right. f_equal. now apply comprehension_checked_Raise in E.
Qed.

(** X1: the constructors of image entities and image properties accept a
    dict exactly when each of its items is a description holding a string;
    the object then carries the given name and the items as attributes, in
    order, and a rejected dict is rejected with [ValueError]. *)
Theorem ImageEntity_init_accepts name attributes :
  let described := Forall (fun item => item.1 = "description" /\ exists s, item.2 = VStr s)
                          attributes in
  (described ->
   ImageEntity_init name attributes
   = Ok (mkImageRequirement ImageEntity name (to_attribute <$> attributes))
   /\ ImageProperty_init name attributes
      = Ok (mkImageRequirement ImageProperty name (to_attribute <$> attributes)))
  /\ (~ described ->
      ImageEntity_init name attributes = Raise ValueError
      /\ ImageProperty_init name attributes = Raise ValueError).
Proof.
  intros described.
  assert (described <->
          Forall (fun item => ImageEntityAttribute_dictionary !! item.1 = Some (type_of item.2))
                 attributes) as Hiff.
  { unfold described. apply Forall_proper; [|reflexivity]. intros [k v]. cbn [fst snd].
    rewrite description_dictionary_lookup. split.
    - intros [-> [s ->]]. auto.
    - intros [-> Ht]. split; [reflexivity|]. destruct v; try discriminate. eauto. }
  unfold ImageEntity_init, ImageProperty_init, ImageEntityAttribute_init,
    ImagePropertyAttribute_init.
  change ImagePropertyAttribute_dictionary with ImageEntityAttribute_dictionary.
  fold (build ImageEntityAttribute_dictionary attributes).
  split.
  - intros Hd. apply Hiff in Hd. rewrite (build_Ok _ _ Hd). auto.
  - intros Hd.
    destruct (build_decide ImageEntityAttribute_dictionary attributes) as [E|E].
    + exfalso. apply Hd, Hiff. now apply build_Ok_inv in E.
    + rewrite E. auto.
Qed.

Lemma ImageEntity_init_accepts_witness :
  ImageEntity_init "cat" [("description", VStr "a small feline")]
  = Ok (mkImageRequirement ImageEntity "cat"
          [mkAttribute "description" (VStr "a small feline")])
  /\ ImageEntity_init "cat" [("description", VInt 3)] = Raise ValueError
  /\ ImageProperty_init "sunny" [("colour", VStr "blue")] = Raise ValueError.
Proof.
  split; [|split].
  - apply (ImageEntity_init_accepts "cat" [("description", VStr "a small feline")]).
    repeat constructor. cbn. eauto.
  - apply (ImageEntity_init_accepts "cat" [("description", VInt 3)]).
    intros H. apply Forall_cons in H as [[_ [s Hs]] _]. discriminate.
  - apply (ImageEntity_init_accepts "sunny" [("colour", VStr "blue")]).
    intros H. apply Forall_cons in H as [[Hk _] _]. discriminate.
Defined.

(** X2: what the constructor of an image entity or property stored is what
    [get_attribute_value] reads back: the value the dict holds for the
    name, and [None] for a name the dict does not hold. *)
Theorem ImageRequirement_get_attribute_value_roundtrip name attributes self :
  ImageEntity_init name attributes = Ok self
  \/ ImageProperty_init name attributes = Ok self ->
  req_name self = name
  /\ forall key,
       ImageRequirement_get_attribute_value self key
       = default VNone (items_get attributes key).
Proof.
  assert (forall cls, (attrs ← build ImageEntityAttribute_dictionary attributes;
                       Ok (mkImageRequirement cls name attrs)) = Ok self ->
            req_name self = name
            /\ forall key, ImageRequirement_get_attribute_value self key
                           = default VNone (items_get attributes key)) as Hgen.
  { intros cls H.
    destruct (build _ attributes) as [attrs|] eqn:E; [|discriminate].
    apply comprehension_checked_Ok in E as [-> _]. injection H as <-.
    split; [reflexivity|]. intros key.
    unfold ImageRequirement_get_attribute_value. cbn [req_attributes].
    apply get_attribute_value_items. }
  intros [H|H]; [apply (Hgen ImageEntity)|apply (Hgen ImageProperty)]; exact H.
Qed.

Lemma ImageRequirement_get_attribute_value_roundtrip_witness :
  ImageRequirement_get_attribute_value
    (mkImageRequirement ImageEntity "cat" [mkAttribute "description" (VStr "a small feline")])
    "description" = VStr "a small feline"
  /\ ImageRequirement_get_attribute_value
       (mkImageRequirement ImageEntity "cat" [mkAttribute "description" (VStr "a small feline")])
       "colour" = VNone.
Proof.
  destruct (ImageRequirement_get_attribute_value_roundtrip "cat"
              [("description", VStr "a small feline")]
              (mkImageRequirement ImageEntity "cat"
                 [mkAttribute "description" (VStr "a small feline")])
              (or_introl eq_refl)) as [_ H].
  split; [apply (H "description")|apply (H "colour")].
Defined.

(** X3: [ImageProperty.has_attribute] returns [True] for a name that one of
    the attributes carries and [None], never [False], for any other name. *)
Theorem ImageProperty_has_attribute_None self name :
  ImageProperty_has_attribute self name
  = (if name_in name (req_attributes self) then VBool true else VNone)
  /\ ImageProperty_has_attribute self name <> VBool false.
Proof.
  assert (ImageProperty_has_attribute self name
          = if name_in name (req_attributes self) then VBool true else VNone) as H.
  { unfold ImageProperty_has_attribute.
    induction (req_attributes self) as [|a l IH].
    - now rewrite name_in_nil.
    - rewrite name_in_cons. cbn [has_attribute].
      destruct (String.eqb (attr_name a) name); [reflexivity|exact IH]. }
  split; [exact H|]. rewrite H. destruct (name_in _ _); discriminate.
Qed.

(** ** What the constructor of an entity leaf stores and accepts *)

Lemma get_attribute_value_absent attrs name :
  name_in name attrs = false -> get_attribute_value attrs name = VNone.
Proof.
  induction attrs as [|a l IH]; [reflexivity|].
  rewrite name_in_cons. cbn [get_attribute_value].
  destruct (String.eqb (attr_name a) name); [discriminate|exact IH].
Qed.

Lemma checked_name_in dictionary attrs name :
  checked dictionary attrs -> name_in name attrs = true -> is_Some (dictionary !! name).
Proof.
  unfold checked. intros Hc Hin. apply name_in_spec in Hin.
  apply list_elem_of_fmap in Hin as (a & -> & Ha).
  rewrite Forall_forall in Hc. rewrite (Hc a Ha). eauto.
Qed.

(** X4: a successful constructor of an entity leaf stores the name, the
    entity and the given score; [min] and [max] read back as given, or as
    the defaults 1 and 0 when the dict has no such key; every other name
    reads back as [None]. *)
Theorem ScenarioImageEntity_init_stores name image_entity attributes self :
  ScenarioImageEntity_init name image_entity attributes = Ok self ->
  sie_name self = name /\ sie_image_entity self = image_entity
  /\ Some (get_attribute_value (sie_attributes self) "score") = items_get attributes "score"
  /\ get_attribute_value (sie_attributes self) "min"
     = default (VInt 1) (items_get attributes "min")
  /\ get_attribute_value (sie_attributes self) "max"
     = default (VInt 0) (items_get attributes "max")
  /\ forall key, key <> "score" -> key <> "min" -> key <> "max" ->
                 get_attribute_value (sie_attributes self) key = VNone.
Proof.
  intros Hinit.
  destruct (ScenarioImageEntity_init_Ok _ _ _ _ Hinit) as (-> & Hc & Hs & _).
  cbn [sie_name sie_image_entity sie_attributes].
  rewrite get_with_defaults_score, get_with_defaults_min, get_with_defaults_max by exact Hs.
  rewrite !effective_value, get_attribute_value_items.
  rewrite name_in_items in Hs. apply bool_decide_eq_true in Hs as [v Hv].
  repeat split; [now rewrite Hv|].
  intros key H1 H2 H3. apply get_attribute_value_absent.
  rewrite name_in_with_defaults.
  destruct (String.eqb_spec "min" key) as [<-|_]; [contradiction|].
  destruct (String.eqb_spec "max" key) as [<-|_]; [contradiction|].
  rewrite !orb_false_r. apply not_true_is_false. intros Hin.
  destruct (checked_name_in _ _ _ Hc Hin) as [t Ht].
  apply entity_dictionary_lookup in Ht as [[-> _]|[[-> _]|[-> _]]]; contradiction.
Qed.

Lemma ScenarioImageEntity_init_stores_witness :
  get_attribute_value (sie_attributes leaf_2_5) "min" = VInt 2
  /\ get_attribute_value (sie_attributes leaf_2_5) "colour" = VNone.
Proof.
  destruct (ScenarioImageEntity_init_stores "some cats" cat
              [("score", VFloat 0.5); ("min", VInt 2); ("max", VInt 5)] leaf_2_5 eq_refl)
    as (_ & _ & _ & Hmin & _ & Hother).
  split; [exact Hmin|]. apply Hother; discriminate.
Defined.

(** X5: the constructor of an entity leaf rejects nothing else: a dict
    whose items all pass the dictionary, that holds a score, and whose
    minimum and maximum in force satisfy [min >= 1] and [max = 0] or
    [min <= max], is accepted, with the defaults appended. *)
Theorem ScenarioImageEntity_init_complete name image_entity attributes s m M :
  Forall (fun item => ScenarioImageEntityAttribute_dictionary !! item.1
                      = Some (type_of item.2)) attributes ->
  items_get attributes "score" = Some (VFloat s) ->
  default (VInt 1) (items_get attributes "min") = VInt m ->
  default (VInt 0) (items_get attributes "max") = VInt M ->
  1 <= m -> M = 0 \/ m <= M ->
  ScenarioImageEntity_init name image_entity attributes
  = Ok (mkScenarioImageEntity name image_entity
          (with_defaults (to_attribute <$> attributes))).
Proof.
  intros Hty Hs Hm HM H1 H2.
  rewrite ScenarioImageEntity_init_unfold.
  pose proof (build_Ok _ _ Hty) as Hb. unfold build in Hb.
  unfold ScenarioImageEntityAttribute_init. rewrite Hb.
  rewrite name_in_items, Hs, bool_decide_eq_true_2 by eauto.
  cbv zeta. rewrite get_with_defaults_min, get_with_defaults_max, !effective_value, Hm, HM.
  rewrite py_lt_int. step.
  assert ((m <? 1) = false) as -> by (apply Z.ltb_ge; lia).
  unfold py_and. rewrite py_gt_int, py_ne_int. step.
  destruct (Z.gtb_spec m M) as [Hgt|_]; step; [|reflexivity].
  assert (M = 0) as -> by lia. reflexivity.
Qed.

Lemma ScenarioImageEntity_init_complete_witness :
  ScenarioImageEntity_init "cats" cat [("score", VFloat 0.5); ("max", VInt 4)]
  = Ok (mkScenarioImageEntity "cats" cat
          [mkAttribute "score" (VFloat 0.5); mkAttribute "max" (VInt 4);
           mkAttribute "min" (VInt 1)]).
Proof.
  apply (ScenarioImageEntity_init_complete "cats" cat
           [("score", VFloat 0.5); ("max", VInt 4)] 0.5 1 4).
  - repeat constructor.
  - reflexivity.
  - reflexivity.
  - reflexivity.
  - lia.
  - right. lia.
Defined.

Lemma to_attribute_to_items attrs : to_attribute <$> to_items attrs = attrs.
Proof.
  unfold to_items. induction attrs as [|[n v] l IH]; [reflexivity|].
  cbn [fmap list_fmap] in *. now rewrite IH.
Qed.

Lemma with_defaults_fixed attrs :
  name_in "min" attrs = true -> name_in "max" attrs = true -> with_defaults attrs = attrs.
Proof. intros Hmin Hmax. unfold with_defaults. now rewrite Hmin, Hmax. Qed.

Lemma checked_with_defaults attrs :
  checked ScenarioImageEntityAttribute_dictionary attrs ->
  checked ScenarioImageEntityAttribute_dictionary (with_defaults attrs).
Proof.
  unfold checked, with_defaults. intros Hc.
  destruct (name_in "min" attrs);
    match goal with |- context [name_in "max" ?l] => destruct (name_in "max" l) end;
    rewrite ?Forall_app; repeat split; try exact Hc; repeat constructor.
Qed.

(** X6: the attributes of a constructed entity leaf, handed back to the
    constructor as a dict, are accepted and stored unchanged: the defaults
    have become part of the object. *)
Theorem ScenarioImageEntity_init_roundtrip name image_entity attributes self :
  ScenarioImageEntity_init name image_entity attributes = Ok self ->
  ScenarioImageEntity_init name image_entity (to_items (sie_attributes self)) = Ok self.
Proof.
  intros Hinit.
  destruct (ScenarioImageEntity_init_Ok _ _ _ _ Hinit)
    as (Hself & Hc & Hs & s & m & M & (Rs & Rm & RM) & _ & _ & H1 & H2).
  subst self. cbn [sie_attributes] in *.
  set (stored := with_defaults (to_attribute <$> attributes)) in *.
  assert (checked ScenarioImageEntityAttribute_dictionary stored) as Hstored.
  { now apply checked_with_defaults. }
  assert (forall key, name_in key (to_attribute <$> attributes)
                      || String.eqb "min" key || String.eqb "max" key = true ->
                      name_in key stored = true) as Hin.
  { intros key Hkey. unfold stored. now rewrite name_in_with_defaults. }
  assert (forall key, name_in key stored = true ->
                      items_get (to_items stored) key = Some (get_attribute_value stored key))
    as Hget.
  { intros key Hkey.
    rewrite <- (to_attribute_to_items stored) in Hkey at 1.
    rewrite name_in_items in Hkey. apply bool_decide_eq_true in Hkey as [v Hv].
    rewrite Hv. f_equal.
    rewrite <- (to_attribute_to_items stored) at 1.
    now rewrite get_attribute_value_items, Hv. }
  rewrite (ScenarioImageEntity_init_complete name image_entity (to_items stored) s m M).
  - rewrite to_attribute_to_items, with_defaults_fixed.
    + reflexivity.
    + apply Hin. now rewrite orb_true_r.
    + apply Hin. now rewrite orb_true_r.
  - unfold checked in Hstored. unfold to_items. rewrite Forall_fmap.
    eapply Forall_impl; [exact Hstored|]. intros a Ha. exact Ha.
  - rewrite Hget, Rs; [reflexivity|]. apply Hin. now rewrite Hs.
  - rewrite Hget, Rm; [reflexivity|]. apply Hin. now rewrite orb_true_r.
  - rewrite Hget, RM; [reflexivity|]. apply Hin. now rewrite orb_true_r.
  - lia.
  - exact H2.
Qed.

Lemma ScenarioImageEntity_init_roundtrip_witness :
  ScenarioImageEntity_init "cats" cat
    [("score", VFloat 0.5); ("min", VInt 1); ("max", VInt 0)]
  = Ok (mkScenarioImageEntity "cats" cat
          [mkAttribute "score" (VFloat 0.5); mkAttribute "min" (VInt 1);
           mkAttribute "max" (VInt 0)]).
Proof.
  apply (ScenarioImageEntity_init_roundtrip "cats" cat [("score", VFloat 0.5)]
           (mkScenarioImageEntity "cats" cat
              [mkAttribute "score" (VFloat 0.5); mkAttribute "min" (VInt 1);
               mkAttribute "max" (VInt 0)])).
  reflexivity.
Defined.

(** X7: a property leaf takes exactly one attribute: on a dict, its
    constructor succeeds exactly when the dict is a score holding a float
    and nothing else. *)
Theorem ScenarioImageProperty_init_single name image_property attributes self :
  is_dict attributes ->
  ScenarioImageProperty_init name image_property attributes = Ok self <->
  exists s, attributes = [("score", VFloat s)]
            /\ self = mkScenarioImageProperty name image_property
                        [mkAttribute "score" (VFloat s)].
Proof.
  intros Hdict. split.
  - intros Hinit. pose proof Hinit as Hinit'.
    apply ScenarioImageProperty_init_Ok in Hinit as (-> & s & Hs).
    unfold ScenarioImageProperty_init in Hinit'.
    destruct (comprehension _ attributes) as [attrs|] eqn:Hb; [|discriminate].
    apply (build_Ok_inv ScenarioImagePropertyAttribute_dictionary) in Hb.
    assert (Forall (fun item => item.1 = "score") attributes) as Hkeys.
    { eapply Forall_impl; [exact Hb|]. intros [k v] Hkv. cbn [fst snd] in *.
      unfold ScenarioImagePropertyAttribute_dictionary in Hkv.
      apply lookup_singleton_Some in Hkv as [<- _]. reflexivity. }
    cbn [sip_attributes] in Hs. rewrite get_attribute_value_items in Hs.
    unfold is_dict in Hdict.
    destruct attributes as [|[k v] [|[k' v'] l]].
    + discriminate.
    + apply Forall_cons in Hkeys as [Hk _]. cbn [fst] in Hk. subst k.
      cbn in Hs. subst v. exists s. split; reflexivity.
    + exfalso. apply Forall_cons in Hkeys as [Hk Hkeys].
      apply Forall_cons in Hkeys as [Hk' _]. cbn [fst] in Hk, Hk'. subst k k'.
      cbn [fmap list_fmap fst] in Hdict. apply NoDup_cons in Hdict as [Hnotin _].
      apply Hnotin, elem_of_cons. left. reflexivity.
  - intros (s & -> & ->). reflexivity.
Qed.

Lemma ScenarioImageProperty_init_single_witness :
  exists s, [("score", VFloat 0.7)] = [("score", VFloat s)]
            /\ leaf_sunny = mkScenarioImageProperty "sunny day" sunny
                              [mkAttribute "score" (VFloat s)].
Proof.
  apply (ScenarioImageProperty_init_single "sunny day" sunny [("score", VFloat 0.7)]).
  - unfold is_dict. cbn [fmap list_fmap fst]. apply NoDup_singleton.
  - reflexivity.
Defined.

(** ** What the evaluation of a leaf depends on *)

Lemma qualifying_count_Permutation image_entity s l1 l2 :
  l1 ≡ₚ l2 -> qualifying_count image_entity s l1 = qualifying_count image_entity s l2.
Proof.
  induction 1 as [|p l l' _ IH|p q l|l l' l'' _ IH1 _ IH2]; cbn [qualifying_count];
    [reflexivity|now rewrite IH|lia|congruence].
Qed.

Lemma with_object_predictions_table self s m M session snapshot l :
  entity_leaf_reads self s m M ->
  image_prediction session = Some snapshot ->
  let count := qualifying_count (sie_image_entity self) s l in
  ScenarioImageEntity_evaluate self (with_object_predictions session l)
  = Ok (if count =? 0 then false
        else (m =? 0) && (M =? 0)
             || (m =? 0) && (count <=? M)
             || (M =? 0) && (count >=? m)
             || (m <=? count) && (count <=? M)).
Proof.
  intros Hreads Hsnap. unfold with_object_predictions. rewrite Hsnap.
  apply (ScenarioImageEntity_evaluate_table self s m M
           (mkSession (Some (mkImagePrediction l (image_property_predictions snapshot))))
           (mkImagePrediction l (image_property_predictions snapshot)) Hreads eq_refl).
Qed.

Lemma ScenarioImageEntity_evaluate_count self s m M session l1 l2 :
  entity_leaf_reads self s m M ->
  qualifying_count (sie_image_entity self) s l1
  = qualifying_count (sie_image_entity self) s l2 ->
  ScenarioImageEntity_evaluate self (with_object_predictions session l1)
  = ScenarioImageEntity_evaluate self (with_object_predictions session l2).
Proof.
  intros Hreads Hcount.
  destruct (image_prediction session) as [snapshot|] eqn:Hsnap.
  - rewrite !(with_object_predictions_table _ _ _ _ _ _ _ Hreads Hsnap).
    now rewrite Hcount.
  - unfold with_object_predictions. now rewrite Hsnap.
Qed.

(** X8: the value of an entity leaf depends on the object detections only
    through the qualifying ones: reordering the detections, or adding one
    of another entity or below the threshold, does not change it. *)
Theorem ScenarioImageEntity_evaluate_irrelevant self s m M session :
  entity_leaf_reads self s m M ->
  (forall l1 l2, l1 ≡ₚ l2 ->
     ScenarioImageEntity_evaluate self (with_object_predictions session l1)
     = ScenarioImageEntity_evaluate self (with_object_predictions session l2))
  /\ (forall p l, qualifying (sie_image_entity self) s p = false ->
        ScenarioImageEntity_evaluate self (with_object_predictions session (p :: l))
        = ScenarioImageEntity_evaluate self (with_object_predictions session l)).
Proof.
  intros Hreads. split.
  - intros l1 l2 Hperm. apply (ScenarioImageEntity_evaluate_count _ s m M); [exact Hreads|].
    now apply qualifying_count_Permutation.
  - intros p l Hp. apply (ScenarioImageEntity_evaluate_count _ s m M); [exact Hreads|].
    cbn [qualifying_count]. rewrite Hp. lia.
Qed.

Lemma ScenarioImageEntity_evaluate_irrelevant_witness :
  ScenarioImageEntity_evaluate leaf_2_5
    (with_object_predictions (cats 0)
       (mkImageObjectPrediction dog 0.9 :: repeat (mkImageObjectPrediction cat 0.9) 3))
  = ScenarioImageEntity_evaluate leaf_2_5
      (with_object_predictions (cats 0) (repeat (mkImageObjectPrediction cat 0.9) 3)).
Proof.
  assert (entity_leaf_reads leaf_2_5 0.5 2 5) as Hr by (repeat split).
  destruct (ScenarioImageEntity_evaluate_irrelevant leaf_2_5 0.5 2 5 (cats 0) Hr) as [_ H].
  apply H. reflexivity.
Defined.

(** X9: a leaf without an upper bound ([max = 0]) is monotone: once it
    holds on a snapshot, it holds after any further detection is added. *)
Theorem ScenarioImageEntity_evaluate_monotone self s m session p l :
  entity_leaf_reads self s m 0 ->
  ScenarioImageEntity_evaluate self (with_object_predictions session l) = Ok true ->
  ScenarioImageEntity_evaluate self (with_object_predictions session (p :: l)) = Ok true.
Proof.
  intros Hreads.
  destruct (image_prediction session) as [snapshot|] eqn:Hsnap.
  - rewrite !(with_object_predictions_table _ _ _ _ _ _ _ Hreads Hsnap).
    cbn [qualifying_count].
    pose proof (qualifying_count_nonneg (sie_image_entity self) s l) as Hc.
    set (c := qualifying_count (sie_image_entity self) s l) in *.
    set (d := if qualifying (sie_image_entity self) s p then 1 else 0).
    assert (0 <= d <= 1) as Hd by (unfold d; destruct (qualifying _ _ p); lia).
    intros [= H]. f_equal.
    destruct (Z.eqb_spec c 0) as [|Hc0]; [discriminate|].
    destruct (Z.eqb_spec (d + c) 0) as [|_]; [lia|].
    cbn [Z.eqb andb orb] in *. rewrite andb_true_r in *.
    destruct (Z.eqb_spec m 0) as [|Hm]; [reflexivity|]. cbn [orb] in *.
    apply orb_true_iff in H as [H|H].
    + apply Z.geb_le in H. apply orb_true_iff. left. apply Z.geb_le. lia.
    + apply andb_true_iff in H as [_ H]. apply Z.leb_le in H. lia.
  - unfold with_object_predictions, ScenarioImageEntity_evaluate.
    rewrite Hsnap. rewrite Hsnap. discriminate.
Qed.

Lemma ScenarioImageEntity_evaluate_monotone_witness :
  ScenarioImageEntity_evaluate
    (mkScenarioImageEntity "cats" cat
       [mkAttribute "score" (VFloat 0.5); mkAttribute "min" (VInt 1);
        mkAttribute "max" (VInt 0)])
    (with_object_predictions (cats 0)
       [mkImageObjectPrediction cat 0.9; mkImageObjectPrediction cat 0.9]) = Ok true.
Proof.
  apply (ScenarioImageEntity_evaluate_monotone _ 0.5 1).
  - repeat split.
  - reflexivity.
Defined.

Lemma comprehension_if_ext {A} (p q : A -> result bool) l :
  (forall x, p x = q x) -> comprehension_if p l = comprehension_if q l.
Proof.
  intros Hpq. induction l as [|x l IH]; [reflexivity|].
  cbn [comprehension_if]. now rewrite Hpq, IH.
Qed.

Lemma ImageRequirement_eq_other p a b :
  ImageRequirement_eq a (ObjImage b) = true ->
  ImageRequirement_eq p (ObjImage a) = ImageRequirement_eq p (ObjImage b).
Proof.
  unfold ImageRequirement_eq. case_bool_decide as Hclass; [|discriminate].
  intros Hname%String.eqb_eq. now rewrite Hclass, Hname.
Qed.

(** X10: a leaf uses its entity or property only through the class and the
    name: two entity leaves with the same attributes whose entities are
    equal in the sense of [__eq__] evaluate alike on every session, and so
    do two property leaves whose properties are equal. *)
Theorem leaf_evaluate_by_name session :
  (forall self other : ScenarioImageEntity,
      ImageRequirement_eq (sie_image_entity self) (ObjImage (sie_image_entity other)) = true ->
      sie_attributes self = sie_attributes other ->
      ScenarioImageEntity_evaluate self session = ScenarioImageEntity_evaluate other session)
  /\ (forall self other : ScenarioImageProperty,
        ImageRequirement_eq (sip_image_property self)
          (ObjImage (sip_image_property other)) = true ->
        sip_attributes self = sip_attributes other ->
        ScenarioImageProperty_evaluate self session
        = ScenarioImageProperty_evaluate other session).
Proof.
  split.
  - intros self other Heq Hattrs. unfold ScenarioImageEntity_evaluate.
    destruct (image_prediction session) as [snapshot|]; [|reflexivity].
    rewrite Hattrs.
    rewrite (comprehension_if_ext
               (qualifies (sie_image_entity self)
                  (get_attribute_value (sie_attributes other) "score"))
               (qualifies (sie_image_entity other)
                  (get_attribute_value (sie_attributes other) "score"))); [reflexivity|].
    intros p. unfold qualifies. now rewrite (ImageRequirement_eq_other _ _ _ Heq).
  - intros self other Heq Hattrs. unfold ScenarioImageProperty_evaluate.
    destruct (image_prediction session) as [snapshot|]; [|reflexivity].
    rewrite Hattrs. induction (image_property_predictions snapshot) as [|p l IH];
      [reflexivity|].
    cbn [property_loop]. now rewrite (ImageRequirement_eq_other _ _ _ Heq), IH.
Qed.

Lemma leaf_evaluate_by_name_witness :
  ScenarioImageEntity_evaluate leaf_2_5 (cats 3)
  = ScenarioImageEntity_evaluate
      (mkScenarioImageEntity "described cats"
         (mkImageRequirement ImageEntity "cat"
            [mkAttribute "description" (VStr "a small feline")])
         (sie_attributes leaf_2_5)) (cats 3).
Proof.
  destruct (leaf_evaluate_by_name (cats 3)) as [H _].
  apply H; reflexivity.
Defined.

(** X11: [__eq__] is an equivalence on perception entities, and equal
    entities have equal hashes, as sets and dict keys require. *)
Theorem ImageRequirement_eq_equivalence (hash_str : string -> Z) :
  (forall a, ImageRequirement_eq a (ObjImage a) = true)
  /\ (forall a b, ImageRequirement_eq a (ObjImage b) = ImageRequirement_eq b (ObjImage a))
  /\ (forall a b c,
        ImageRequirement_eq a (ObjImage b) = true ->
        ImageRequirement_eq b (ObjImage c) = true ->
        ImageRequirement_eq a (ObjImage c) = true)
  /\ (forall a b,
        ImageRequirement_eq a (ObjImage b) = true ->
        ImageRequirement_hash hash_str a = ImageRequirement_hash hash_str b).
Proof.
  assert (forall a b, ImageRequirement_eq a (ObjImage b) = true <->
                      req_class a = req_class b /\ req_name a = req_name b) as Hspec.
  { intros a b. unfold ImageRequirement_eq. case_bool_decide as Hclass.
    - rewrite String.eqb_eq. split; [intros ->|intros [_ ->]]; auto.
    - split; [discriminate|]. intros [Hsame _]. congruence. }
  split; [|split; [|split]].
  - intros a. now apply Hspec.
  - intros a b. apply eq_true_iff_eq. rewrite !Hspec. split; intros [-> ->]; auto.
  - intros a b c [H1 H2]%Hspec [H3 H4]%Hspec. apply Hspec. split; congruence.
  - intros a b [_ Hname]%Hspec. unfold ImageRequirement_hash. now rewrite Hname.
Qed.

Lemma ImageRequirement_eq_equivalence_witness :
  ImageRequirement_hash (fun s => Z.of_nat (String.length s)) cat
  = ImageRequirement_hash (fun s => Z.of_nat (String.length s))
      (mkImageRequirement ImageEntity "cat"
         [mkAttribute "description" (VStr "a small feline")]).
Proof.
  destruct (ImageRequirement_eq_equivalence (fun s => Z.of_nat (String.length s)))
    as (_ & _ & _ & H).
  apply H. reflexivity.
Defined.

Lemma existsb_Permutation {A} (f : A -> bool) l1 l2 :
  l1 ≡ₚ l2 -> existsb f l1 = existsb f l2.
Proof.
  induction 1 as [|x l l' _ IH|x y l|l l' l'' _ IH1 _ IH2]; cbn [existsb];
    [reflexivity|now rewrite IH|now rewrite !orb_assoc, (orb_comm (f y))|congruence].
Qed.

(** X12: a property leaf tests existence: its value does not depend on the
    order of the property detections, and once it holds it holds after any
    further detection is added. *)
Theorem ScenarioImageProperty_evaluate_monotone self s session :
  get_attribute_value (sip_attributes self) "score" = VFloat s ->
  (forall l1 l2, l1 ≡ₚ l2 ->
     ScenarioImageProperty_evaluate self (with_property_predictions session l1)
     = ScenarioImageProperty_evaluate self (with_property_predictions session l2))
  /\ (forall p l,
        ScenarioImageProperty_evaluate self (with_property_predictions session l) = Ok true ->
        ScenarioImageProperty_evaluate self (with_property_predictions session (p :: l))
        = Ok true).
Proof.
  intros Hs.
  assert (forall l, ScenarioImageProperty_evaluate self (with_property_predictions session l)
                    = Ok (match image_prediction session with
                          | Some _ => existsb (property_match (sip_image_property self) s) l
                          | None => false
                          end)) as Heval.
  { intros l. unfold with_property_predictions, ScenarioImageProperty_evaluate.
    destruct (image_prediction session) as [snapshot|] eqn:Hsnap.
    - cbn [image_prediction image_property_predictions].
      now rewrite Hs, property_loop_float.
    - now rewrite Hsnap. }
  split.
  - intros l1 l2 Hperm. rewrite !Heval.
    destruct (image_prediction session); [|reflexivity].
    f_equal. now apply existsb_Permutation.
  - intros p l. rewrite !Heval.
    destruct (image_prediction session); [|discriminate].
    cbn [existsb]. intros [= ->]. now rewrite orb_true_r.
Qed.

Lemma ScenarioImageProperty_evaluate_monotone_witness :
  ScenarioImageProperty_evaluate leaf_sunny
    (with_property_predictions (cats 0)
       [mkImagePropertyPrediction sunny 0.25; mkImagePropertyPrediction sunny 0.75])
  = Ok true.
Proof.
  destruct (ScenarioImageProperty_evaluate_monotone leaf_sunny 0.7 (cats 0) eq_refl)
    as [_ H].
  apply H. reflexivity.
Defined.

(** ** How composite expressions combine *)

Lemma comprehension_fmap {A B C} (f : B -> result C) (g : A -> B) l :
  comprehension f (g <$> l) = comprehension (fun x => f (g x)) l.
Proof.
  induction l as [|x l IH]; [reflexivity|].
  cbn [fmap list_fmap comprehension]. fold (@comprehension B C) (@comprehension A C).
  destruct (f (g x)); step; [|reflexivity].
  change (list_fmap A B g l) with (g <$> l). now rewrite IH.
Qed.

Lemma comprehension_post {A B C} (f : A -> result B) (g : B -> C) l :
  comprehension (fun x => match f x with Ok y => Ok (g y) | Raise e => Raise e end) l
  = match comprehension f l with Ok ys => Ok (g <$> ys) | Raise e => Raise e end.
Proof.
  induction l as [|x l IH]; [reflexivity|].
  cbn [comprehension]. fold (@comprehension A C) (@comprehension A B).
  rewrite IH. destruct (f x); step; [|reflexivity].
  destruct (comprehension f l); reflexivity.
Qed.

Lemma comprehension_app {A B} (f : A -> result B) l1 l2 :
  comprehension f (l1 ++ l2)
  = (ys1 ← comprehension f l1; ys2 ← comprehension f l2; Ok (ys1 ++ ys2)).
Proof.
  induction l1 as [|x l IH].
  - cbn [app comprehension]. step. destruct (comprehension f l2); reflexivity.
  - cbn [app comprehension]. fold (@comprehension A B). rewrite IH.
    destruct (f x); step; [|reflexivity].
    destruct (comprehension f l); step; [|reflexivity].
    destruct (comprehension f l2); reflexivity.
Qed.

Lemma py_any_negb bs : py_any (negb <$> bs) = negb (py_all bs).
Proof.
  unfold py_any, py_all, id. induction bs as [|b bs IH]; [reflexivity|].
  cbn [fmap list_fmap existsb forallb]. change (list_fmap bool bool negb bs) with (negb <$> bs).
  rewrite IH. now destruct b.
Qed.

Lemma py_all_negb bs : py_all (negb <$> bs) = negb (py_any bs).
Proof.
  unfold py_any, py_all, id. induction bs as [|b bs IH]; [reflexivity|].
  cbn [fmap list_fmap existsb forallb]. change (list_fmap bool bool negb bs) with (negb <$> bs).
  rewrite IH. now destruct b.
Qed.

Lemma comprehension_mk_NOT l :
  comprehension mk_NOT l = Ok ((fun e => BooleanExpression NOT [e]) <$> l).
Proof.
  induction l as [|e l IH]; [reflexivity|].
  cbn [comprehension]. fold (@comprehension Expression Expression). now rewrite IH.
Qed.

Lemma mk_composite operator l :
  operator <> NOT -> (2 <= length l)%nat ->
  BooleanExpression_init operator l = Ok (BooleanExpression operator l).
Proof.
  intros Hop Hlen. unfold BooleanExpression_init.
  destruct operator; [| |contradiction]; cbn [andb];
    now rewrite bool_decide_eq_false_2 by lia.
Qed.

(** X13: [NOT] never fails, and a double negation built with it evaluates
    like the expression itself on every session, the errors of the
    expression included. *)
Theorem NOT_involutive expression :
  mk_NOT expression = Ok (BooleanExpression NOT [expression])
  /\ exists twice,
       (once ← mk_NOT expression; mk_NOT once) = Ok twice
       /\ forall session, evaluate twice session = evaluate expression session.
Proof.
  split; [reflexivity|]. eexists. split; [reflexivity|].
  intros session. rewrite !evaluate_boolean.
  destruct (evaluate expression session) as [b|]; step; [|reflexivity].
  now rewrite negb_involutive.
Qed.

(** X14: De Morgan's laws hold between the expressions that [AND], [OR]
    and [NOT] build from two or more children: the negation of a
    conjunction evaluates like the disjunction of the negations, and the
    negation of a disjunction like the conjunction of the negations. *)
Theorem De_Morgan expressions :
  (2 <= length expressions)%nat ->
  (exists lhs rhs,
      (conj ← mk_AND expressions; mk_NOT conj) = Ok lhs
      /\ (negations ← comprehension mk_NOT expressions; mk_OR negations) = Ok rhs
      /\ forall session, evaluate lhs session = evaluate rhs session)
  /\ (exists lhs rhs,
        (disj ← mk_OR expressions; mk_NOT disj) = Ok lhs
        /\ (negations ← comprehension mk_NOT expressions; mk_AND negations) = Ok rhs
        /\ forall session, evaluate lhs session = evaluate rhs session).
Proof.
  intros Hlen.
  assert (forall session,
             comprehension (fun e => evaluate e session)
               ((fun e => BooleanExpression NOT [e]) <$> expressions)
             = match comprehension (fun e => evaluate e session) expressions with
               | Ok bs => Ok (negb <$> bs)
               | Raise e => Raise e
               end) as Hneg.
  { intros session. rewrite comprehension_fmap.
    apply (comprehension_post (fun e => evaluate e session) negb). }
  unfold mk_AND, mk_OR. rewrite comprehension_mk_NOT. step.
  rewrite !mk_composite by (rewrite ?length_fmap; (discriminate || lia)). step.
  split.
  - eexists. eexists. split; [reflexivity|]. split; [reflexivity|].
    intros session. rewrite (evaluate_boolean NOT), (evaluate_boolean OR), Hneg.
    rewrite (evaluate_boolean AND).
    destruct (comprehension _ expressions) as [bs|]; step; [|reflexivity].
    now rewrite py_any_negb.
  - eexists. eexists. split; [reflexivity|]. split; [reflexivity|].
    intros session. rewrite (evaluate_boolean NOT), (evaluate_boolean AND), Hneg.
    rewrite (evaluate_boolean OR).
    destruct (comprehension _ expressions) as [bs|]; step; [|reflexivity].
    now rewrite py_all_negb.
Qed.

Lemma De_Morgan_witness :
  exists lhs rhs,
    (conj ← mk_AND [Requirement (RequireImageEntity leaf_2_5);
                    Requirement (RequireImageProperty leaf_sunny)]; mk_NOT conj) = Ok lhs
    /\ (negations ← comprehension mk_NOT [Requirement (RequireImageEntity leaf_2_5);
                                          Requirement (RequireImageProperty leaf_sunny)];
        mk_OR negations) = Ok rhs
    /\ forall session, evaluate lhs session = evaluate rhs session.
Proof.
  destruct (De_Morgan [Requirement (RequireImageEntity leaf_2_5);
                       Requirement (RequireImageProperty leaf_sunny)]) as [H _].
  - simpl. lia.
  - exact H.
Defined.

Lemma py_all_app bs1 bs2 : py_all (bs1 ++ bs2) = py_all bs1 && py_all bs2.
Proof. apply forallb_app. Qed.

Lemma py_any_app bs1 bs2 : py_any (bs1 ++ bs2) = py_any bs1 || py_any bs2.
Proof. apply existsb_app. Qed.

(** X15: conjunctions and disjunctions nest freely: an [AND] whose first
    child is an [AND] evaluates like the [AND] of all the children in one
    list, and likewise for [OR], on every session. *)
Theorem composite_flattens inner outer :
  (2 <= length inner)%nat -> (1 <= length outer)%nat ->
  (exists nested flat,
      (first ← mk_AND inner; mk_AND (first :: outer)) = Ok nested
      /\ mk_AND (inner ++ outer) = Ok flat
      /\ forall session, evaluate nested session = evaluate flat session)
  /\ (exists nested flat,
        (first ← mk_OR inner; mk_OR (first :: outer)) = Ok nested
        /\ mk_OR (inner ++ outer) = Ok flat
        /\ forall session, evaluate nested session = evaluate flat session).
Proof.
  intros Hinner Houter. unfold mk_AND, mk_OR.
  rewrite !(mk_composite _ inner) by (discriminate || lia). step.
  rewrite !mk_composite by (rewrite ?length_app; cbn [length]; (discriminate || lia)).
  split.
  - eexists. eexists. split; [reflexivity|]. split; [reflexivity|].
    intros session. rewrite !(evaluate_boolean AND), comprehension_app.
    cbn [comprehension]. fold (@comprehension Expression bool).
    rewrite (evaluate_boolean AND).
    destruct (comprehension _ inner) as [bs1|]; step; [|reflexivity].
    destruct (comprehension _ outer) as [bs2|]; step; [|reflexivity].
    now rewrite py_all_app.
  - eexists. eexists. split; [reflexivity|]. split; [reflexivity|].
    intros session. rewrite !(evaluate_boolean OR), comprehension_app.
    cbn [comprehension]. fold (@comprehension Expression bool).
    rewrite (evaluate_boolean OR).
    destruct (comprehension _ inner) as [bs1|]; step; [|reflexivity].
    destruct (comprehension _ outer) as [bs2|]; step; [|reflexivity].
    now rewrite py_any_app.
Qed.

Lemma composite_flattens_witness :
  exists nested flat,
    (first ← mk_OR [Requirement (RequireImageEntity leaf_2_5);
                    Requirement (RequireImageEntity leaf_0_0)];
     mk_OR [first; Requirement (RequireImageProperty leaf_sunny)]) = Ok nested
    /\ mk_OR ([Requirement (RequireImageEntity leaf_2_5);
               Requirement (RequireImageEntity leaf_0_0)]
              ++ [Requirement (RequireImageProperty leaf_sunny)]) = Ok flat
    /\ forall session, evaluate nested session = evaluate flat session.
Proof.
  destruct (composite_flattens [Requirement (RequireImageEntity leaf_2_5);
                                Requirement (RequireImageEntity leaf_0_0)]
              [Requirement (RequireImageProperty leaf_sunny)]) as [_ H].
  - simpl. lia.
  - simpl. lia.
  - exact H.
Defined.

Lemma comprehension_Raise {A B} (f : A -> result B) l x err :
  x ∈ l -> f x = Raise err -> exists err', comprehension f l = Raise err'.
Proof.
  intros Hin Hx. induction l as [|y l IH]; [now apply elem_of_nil in Hin|].
  cbn [comprehension]. fold (@comprehension A B).
  destruct (f y) as [b|e] eqn:Hy; step; [|eauto].
  apply elem_of_cons in Hin as [->|Hin]; [congruence|].
  destruct (IH Hin) as [err' ->]. eauto.
Qed.

(** X16: the value of a conjunction or a disjunction of constructed
    expressions does not depend on the order of its children. *)
Theorem composite_order operator expressions expressions' session :
  operator <> NOT ->
  Forall constructed expressions ->
  expressions ≡ₚ expressions' ->
  evaluate (BooleanExpression operator expressions) session
  = evaluate (BooleanExpression operator expressions') session.
Proof.
  intros Hop Hall Hperm.
  assert (Forall constructed expressions') as Hall' by now rewrite <- Hperm.
  assert (forall l, Forall constructed l ->
            exists bs, comprehension (fun e => evaluate e session) l = Ok bs
                       /\ Forall2 (fun e b => evaluate e session = Ok b) l bs) as Hev.
  { intros l Hl. apply comprehension_Ok.
    eapply Forall_impl; [exact Hl|]. intros e He. now apply evaluate_constructed. }
  destruct (Hev _ Hall) as (bs & Hbs & H2), (Hev _ Hall') as (bs' & Hbs' & H2').
  rewrite !evaluate_boolean, Hbs, Hbs'.
  destruct operator; [| |contradiction]; step; f_equal; apply eq_true_iff_eq.
  - rewrite (py_all_Forall2 _ _ _ H2), (py_all_Forall2 _ _ _ H2').
    split; intros H e He; apply H; [now rewrite Hperm|now rewrite <- Hperm].
  - rewrite (py_any_Forall2 _ _ _ H2), (py_any_Forall2 _ _ _ H2').
    split; intros (e & He & Hte); exists e; (split; [|exact Hte]);
      [now rewrite <- Hperm|now rewrite Hperm].
Qed.

Lemma composite_order_witness :
  evaluate (BooleanExpression AND [Requirement (RequireImageEntity leaf_2_5);
                                   Requirement (RequireImageProperty leaf_sunny)]) (cats 3)
  = evaluate (BooleanExpression AND [Requirement (RequireImageProperty leaf_sunny);
                                     Requirement (RequireImageEntity leaf_2_5)]) (cats 3).
Proof.
  apply composite_order.
  - discriminate.
  - apply Forall_cons. split; [exact leaf_2_5_constructed|].
    apply Forall_cons. split; [exact leaf_sunny_constructed|apply Forall_nil_2].
  - apply perm_swap.
Defined.

(** X17: a conjunction or a disjunction evaluates all its children before
    it combines them: when any child raises, the composite raises, also
    when an earlier child has already decided the result. *)
Theorem composite_raises operator expressions expression session err :
  operator <> NOT ->
  expression ∈ expressions ->
  evaluate expression session = Raise err ->
  exists err', evaluate (BooleanExpression operator expressions) session = Raise err'.
Proof.
  intros Hop Hin Hraise. rewrite evaluate_boolean.
  destruct (comprehension_Raise (fun e => evaluate e session) _ _ _ Hin Hraise) as [err' ->].
  destruct operator; [| |contradiction]; eauto.
Qed.

Lemma composite_raises_witness :
  evaluate (Requirement (RequireImageEntity leaf_2_5)) (cats 3) = Ok true
  /\ exists err',
       evaluate (BooleanExpression OR [Requirement (RequireImageEntity leaf_2_5);
                                       Requirement (RequireImageEntity leaf_emptied)])
                (cats 3) = Raise err'.
Proof.
  split; [reflexivity|].
  apply (composite_raises OR _ (Requirement (RequireImageEntity leaf_emptied)) _ TypeError).
  - discriminate.
  - apply elem_of_cons. right. apply elem_of_cons. left. reflexivity.
  - reflexivity.
Defined.

(** X18: a scenario must be given its expression before it is evaluated:
    a fresh scenario raises [AttributeError], and a scenario whose
    expression was set to a constructed expression evaluates to the boolean
    of that expression, the last [set_expression] winning. *)
Theorem Scenario_lifecycle name session :
  Scenario_evaluate (Scenario_init name) session = Raise AttributeError
  /\ forall expression replaced,
       constructed expression ->
       exists b,
         evaluate expression session = Ok b
         /\ Scenario_evaluate (set_expression (Scenario_init name) expression) session = Ok b
         /\ Scenario_evaluate
              (set_expression (set_expression (Scenario_init name) replaced) expression)
              session = Ok b.
Proof.
  split; [reflexivity|]. intros expression replaced Hc.
  destruct (evaluate_constructed _ Hc session) as [b Hb].
  exists b. repeat split; exact Hb.
Qed.

Lemma Scenario_lifecycle_witness :
  exists b,
    evaluate (Requirement (RequireImageEntity leaf_2_5)) (cats 3) = Ok b
    /\ Scenario_evaluate
         (set_expression (Scenario_init "cats") (Requirement (RequireImageEntity leaf_2_5)))
         (cats 3) = Ok b
    /\ Scenario_evaluate
         (set_expression
            (set_expression (Scenario_init "cats") (Requirement (RequireImageProperty leaf_sunny)))
            (Requirement (RequireImageEntity leaf_2_5)))
         (cats 3) = Ok b.
Proof.
  destruct (Scenario_lifecycle "cats" (cats 3)) as [_ H].
  apply H. exact leaf_2_5_constructed.
Defined.

(** ** The event predicates on a raised flag *)








(** X19: with the flag raised, [intent_matched] compares the two intents by
    name and returns that boolean; it raises [KeyError] when the parameters
    hold no target intent. *)
Theorem intent_matched_by_name session event_params :
  Bot.flags session !! "predicted_intent" = Some true ->
  (event_params !! "intent" = None ->
   Bot.intent_matched session event_params = Raise KeyError)
  /\ (forall target prediction,
        event_params !! "intent" = Some (Bot.ParamIntent target) ->
        Bot.predicted_intent session = Some prediction ->
        exists b, Bot.intent_matched session event_params = Ok (VBool b)
                  /\ (b = true <->
                      Bot.intent_name target = Bot.intent_name (Bot.icp_intent prediction))).
Proof.
  intros Hflag. unfold Bot.intent_matched, Bot.subscript. rewrite Hflag. step.
  split.
  - intros ->. reflexivity.
  - intros target prediction -> ->. eexists. split; [reflexivity|]. apply String.eqb_eq.
Qed.

Lemma intent_matched_by_name_witness :
  exists b, Bot.intent_matched busy_session greeting_params = Ok (VBool b)
            /\ (b = true <-> "greeting" = "greeting").
Proof.
  destruct (intent_matched_by_name busy_session greeting_params eq_refl) as [_ H].
  apply (H (Bot.mkIntent "greeting")
           (Bot.mkIntentClassifierPrediction (Bot.mkIntent "greeting"))); reflexivity.
Defined.



Lemma detection_loop_float target t predictions :
  Bot.detection_loop (Bot.ParamImageObject target) (Bot.ParamValue (VFloat t)) predictions
  = Ok (existsb (fun p => String.eqb (Bot.image_object_name (Bot.iop_image_object p))
                                     (Bot.image_object_name target)
                          && float_ge (Bot.iop_score p) t) predictions).
Proof.
  induction predictions as [|p l IH]; [reflexivity|].
  cbn [Bot.detection_loop existsb Bot.ImageObject_eq Bot.score_ge]. unfold py_and.
  rewrite py_ge_float. step.
  destruct (String.eqb _ _); cbn [andb orb]; [|exact IH].
  destruct (float_ge _ _); cbn [orb]; [reflexivity|exact IH].
Qed.

(** X21: with the flag raised, [image_object_detected] returns [True]
    exactly when some object detection of the snapshot has the name of the
    target and a score of at least the target score, and [False] otherwise;
    it raises [KeyError] when a parameter is missing, whatever the
    snapshot holds. *)
Theorem image_object_detected_threshold session event_params :
  Bot.flags session !! "image_prediction" = Some true ->
  (event_params !! "image_object" = None \/ event_params !! "score" = None ->
   Bot.image_object_detected session event_params = Raise KeyError)
  /\ (forall target t snapshot,
        event_params !! "image_object" = Some (Bot.ParamImageObject target) ->
        event_params !! "score" = Some (Bot.ParamValue (VFloat t)) ->
        Bot.image_prediction session = Some snapshot ->
        exists b,
          Bot.image_object_detected session event_params = Ok (VBool b)
          /\ (b = true <->
              exists p, p ∈ Bot.image_object_predictions snapshot
                        /\ Bot.image_object_name (Bot.iop_image_object p)
                           = Bot.image_object_name target
                        /\ float_ge (Bot.iop_score p) t = true)).
Proof.
  intros Hflag. unfold Bot.image_object_detected, Bot.subscript. rewrite Hflag. step.
  split.
  - intros [->| ->]; [reflexivity|].
    destruct (event_params !! "image_object"); reflexivity.
  - intros target t snapshot -> -> ->. cbn [Bot.attribute_of]. step.
    rewrite detection_loop_float. step.
    match goal with |- context [existsb ?f ?l] => destruct (existsb f l) eqn:E end.
    + eexists. split; [reflexivity|]. split; [intros _|reflexivity].
      apply existsb_exists in E as (p & Hin & Hp).
      apply andb_true_iff in Hp as [Hname%String.eqb_eq Hscore].
      exists p. split; [now apply list_elem_of_In|auto].
    + eexists. split; [reflexivity|]. split; [discriminate|].
      intros (p & Hin & Hname & Hscore). rewrite <- E.
      apply existsb_exists. exists p. split; [now apply list_elem_of_In|].
      apply andb_true_iff. split; [now apply String.eqb_eq|exact Hscore].
Qed.

Lemma image_object_detected_threshold_witness :
  exists b,
    Bot.image_object_detected busy_session
      {[ "image_object" := Bot.ParamImageObject (Bot.mkImageObject "cat");
         "score" := Bot.ParamValue (VFloat 0.5) ]} = Ok (VBool b)
    /\ (b = true <->
        exists p, p ∈ [Bot.mkImageObjectPrediction (Bot.mkImageObject "cat") 0.9]
                  /\ Bot.image_object_name (Bot.iop_image_object p) = "cat"
                  /\ float_ge (Bot.iop_score p) 0.5 = true).
Proof.
  destruct (image_object_detected_threshold busy_session
              {[ "image_object" := Bot.ParamImageObject (Bot.mkImageObject "cat");
                 "score" := Bot.ParamValue (VFloat 0.5) ]} eq_refl) as [_ H].
  apply (H (Bot.mkImageObject "cat") 0.5%float
           (Bot.mkImagePrediction
              [Bot.mkImageObjectPrediction (Bot.mkImageObject "cat") 0.9])); reflexivity.
Defined.

(** ** The event predicates and the flags mapping *)

(** X22: each of the three predicates reads its flag by subscript: on a
    session whose flags mapping lacks the key, the predicate raises
    [KeyError], whatever the parameters. *)
Theorem flag_missing_raises session event_params :
  (Bot.flags session !! "predicted_intent" = None ->
   Bot.intent_matched session event_params = Raise KeyError)
  /\ (Bot.flags session !! "file" = None ->
      Bot.file_received session event_params = Raise KeyError)
  /\ (Bot.flags session !! "image_prediction" = None ->
      Bot.image_object_detected session event_params = Raise KeyError).
Proof.
  unfold Bot.intent_matched, Bot.file_received, Bot.image_object_detected, Bot.subscript.
  repeat split; intros ->; reflexivity.
Qed.

Lemma flag_missing_raises_witness :
  Bot.intent_matched (Bot.mkSession ∅ None None None) greeting_params = Raise KeyError
  /\ Bot.file_received (Bot.mkSession ∅ None None None) greeting_params = Raise KeyError
  /\ Bot.image_object_detected (Bot.mkSession ∅ None None None) greeting_params
     = Raise KeyError.
Proof.
  destruct (flag_missing_raises (Bot.mkSession ∅ None None None) greeting_params)
    as (H1 & H2 & H3).
  split; [apply H1|split; [apply H2|apply H3]]; reflexivity.
Defined.

(** X23: [file_received] and [image_object_detected] never return [None]:
    what they return is a boolean, and it is [False] on a lowered flag
    whatever the parameters and the rest of the session hold. *)
Theorem predicates_return_booleans session event_params :
  (forall v, Bot.file_received session event_params = Ok v -> exists b, v = VBool b)
  /\ (forall v, Bot.image_object_detected session event_params = Ok v -> exists b, v = VBool b)
  /\ (Bot.flags session !! "file" = Some false ->
      Bot.file_received session event_params = Ok (VBool false))
  /\ (Bot.flags session !! "image_prediction" = Some false ->
      Bot.image_object_detected session event_params = Ok (VBool false)).
Proof.
  split; [|split; [|split]].
  - intros v. unfold Bot.file_received.
    destruct (Bot.subscript (Bot.flags session) "file") as [[]|]; step;
      [|intros [= <-]; eauto|discriminate].
    destruct (event_params !! "allowed_types"); [|intros [= <-]; eauto].
    destruct (Bot.attribute_of _ _); step; [|discriminate].
    destruct (Bot.py_or _ _) as [[]|]; step; [intros [= <-]..|discriminate]; eauto.
  - intros v. unfold Bot.image_object_detected.
    destruct (Bot.subscript (Bot.flags session) "image_prediction") as [[]|]; step;
      [|intros [= <-]; eauto|discriminate].
    destruct (Bot.subscript event_params "image_object"); step; [|discriminate].
    destruct (Bot.subscript event_params "score"); step; [|discriminate].
    destruct (Bot.attribute_of _ _); step; [|discriminate].
    destruct (Bot.detection_loop _ _ _) as [[]|]; step;
      [intros [= <-]..|discriminate]; eauto.
  - apply file_received_flag_false.
  - apply image_object_detected_flag_false.
Qed.

Lemma predicates_return_booleans_witness :
  Bot.file_received idle_session ∅ = Ok (VBool false)
  /\ Bot.image_object_detected idle_session ∅ = Ok (VBool false).
Proof.
  destruct (predicates_return_booleans idle_session ∅) as (_ & _ & H1 & H2).
  split; [apply H1|apply H2]; reflexivity.
Defined.
